(** * Foodgram backend (fgapp): filters and view sets

    A shallow embedding of [fgapp/filters.py], [fgapp/views.py] and of the
    inline declaration of [fgapp/admin.py].  Database tables are lists of
    rows (the columns are those the admin registrations display), a
    queryset is the list of rows it evaluates to, and a view is a function
    of the database that returns a response (or raises) together with the
    database it leaves behind. *)

From Stdlib Require Import ZArith Ascii String.
From stdpp Require Import base decidable option list strings gmap.

Local Open Scope Z_scope.
Local Open Scope string_scope.

(** ** Data layer *)

(** Primary keys are the integers of Django's automatic [id] column. *)
Abbreviation pk_t := Z.

Module User.
Record t := mk {
  pk : pk_t;
  username : string;
  first_name : string;
  last_name : string;
  email : string
}.
#[global] Instance eq_dec : EqDecision t.
Proof. solve_decision. Defined.
End User.

Module Subscribe.
Record t := mk { pk : pk_t; user : pk_t; subscribing : pk_t }.
#[global] Instance eq_dec : EqDecision t.
Proof. solve_decision. Defined.
End Subscribe.

Module Recipe.
Record t := mk {
  pk : pk_t;
  author : pk_t;
  name : string;
  text : string;
  pub_date : Z
}.
#[global] Instance eq_dec : EqDecision t.
Proof. solve_decision. Defined.
End Recipe.

Module Tag.
Record t := mk { pk : pk_t; name : string; slug : string }.
#[global] Instance eq_dec : EqDecision t.
Proof. solve_decision. Defined.
End Tag.

Module Ingredient.
Record t := mk { pk : pk_t; name : string; measurement_unit : string }.
#[global] Instance eq_dec : EqDecision t.
Proof. solve_decision. Defined.
End Ingredient.

Module RecipeIngredients.
Record t := mk { pk : pk_t; recipe : pk_t; ingredient : pk_t; amount : Z }.
#[global] Instance eq_dec : EqDecision t.
Proof. solve_decision. Defined.
End RecipeIngredients.

Module RecipeTags.
Record t := mk { pk : pk_t; recipe : pk_t; tag : pk_t }.
#[global] Instance eq_dec : EqDecision t.
Proof. solve_decision. Defined.
End RecipeTags.

Module FavoriteRecipe.
Record t := mk { pk : pk_t; user : pk_t; recipe : pk_t }.
#[global] Instance eq_dec : EqDecision t.
Proof. solve_decision. Defined.
End FavoriteRecipe.

Module ShoppingCart.
Record t := mk { pk : pk_t; user : pk_t; recipe : pk_t }.
#[global] Instance eq_dec : EqDecision t.
Proof. solve_decision. Defined.
End ShoppingCart.

(** The relational store: one list of rows per model. *)
Record DB := mkDB {
  users : list User.t;
  subscriptions : list Subscribe.t;
  recipes : list Recipe.t;
  tags : list Tag.t;
  ingredients : list Ingredient.t;
  recipe_ingredients : list RecipeIngredients.t;
  recipe_tags : list RecipeTags.t;
  favorites : list FavoriteRecipe.t;
  shopping_list : list ShoppingCart.t
}.

(** ** Requests, exceptions and responses *)

(** [request.user] is either Django's [AnonymousUser] or a row of the user
    table. *)
Inductive RequestUser :=
  | AnonymousUser
  | AuthUser (u : User.t).

Definition is_authenticated (user : RequestUser) : bool :=
  match user with
  | AnonymousUser => false
  | AuthUser _ => true
  end.

(** The exceptions the embedded code raises or lets through. *)
Inductive Exn :=
  | Http404
  | DoesNotExist
  | MultipleObjectsReturned
  | ValidationError
  | AssertionError.

#[global] Instance Exn_eq_dec : EqDecision Exn.
Proof. solve_decision. Defined.

Inductive result (A : Type) :=
  | Ok (a : A)
  | Raise (e : Exn).
Arguments Ok {A} a.
Arguments Raise {A} e.

(** A view runs against the store and leaves a store behind, also when it
    raises: there is no transaction around the handlers. *)
Definition M (A : Type) : Type := DB → result A * DB.

Definition ret {A} (a : A) : M A := λ db, (Ok a, db).
Definition raise {A} (e : Exn) : M A := λ db, (Raise e, db).
Definition bind {A B} (m : M A) (k : A → M B) : M B :=
  λ db, match m db with
        | (Ok a, db') => k a db'
        | (Raise e, db') => (Raise e, db')
        end.
Definition query {A} (f : DB → result A) : M A := λ db, (f db, db).
Definition execute (f : DB → DB) : M unit := λ db, (Ok (), f db).

#[global] Instance M_ret : MRet M := @ret.
#[global] Instance M_bind : MBind M := λ A B k m, bind m k.

(** [try: x = body / except exc: return handler / (rest) orelse x]: the
    handler returns from the view, the other exceptions pass through. *)
Definition try_except {A B} (body : M A) (exc : Exn) (handler : M B)
  (orelse : A → M B) : M B :=
  λ db, match body db with
        | (Ok a, db') => orelse a db'
        | (Raise e, db') =>
            if decide (e = exc) then handler db' else (Raise e, db')
        end.

(** Values of request payloads, validated data and response bodies. *)
Inductive value :=
  | VInt (z : Z)
  | VStr (s : string)
  | VUser (u : User.t)
  | VIds (l : list Z).

Inductive Status :=
  | HTTP_200_OK
  | HTTP_201_CREATED
  | HTTP_204_NO_CONTENT
  | HTTP_400_BAD_REQUEST
  | HTTP_404_NOT_FOUND
  | HTTP_500_INTERNAL_SERVER_ERROR.

(** [Response(data, status=...)]; [data] defaults to [None]. *)
Record Response := mkResponse {
  data : option (gmap string value);
  status : Status
}.

(** ** Querysets *)

(** [Exists(queryset)]: true when the sub-query has a row. *)
Definition Exists_ {A} (qs : list A) : bool :=
  match qs with
  | [] => false
  | _ :: _ => true
  end.

(** [QuerySet.get]: the single row that satisfies the lookup. *)
Definition get {A} (P : A → Prop) `{∀ x, Decision (P x)} (rows : list A)
  : result A :=
  match filter P rows with
  | [] => Raise DoesNotExist
  | [x] => Ok x
  | _ :: _ :: _ => Raise MultipleObjectsReturned
  end.

(** [django.shortcuts.get_object_or_404]. *)
Definition get_object_or_404 {A} (P : A → Prop) `{∀ x, Decision (P x)}
  (rows : list A) : result A :=
  match get P rows with
  | Raise DoesNotExist => Raise Http404
  | r => r
  end.

(** [python decimal.Decimal] as the form field of a [NumberFilter] cleans
    it: a finite number [coefficient * 10 ^ exponent]. *)
Module Decimal.
Record t := mk { coefficient : Z; exponent : Z }.
Definition of_Z (z : Z) : t := mk z 0.
(** [bool(d)]: a decimal is falsy exactly when it is zero. *)
Definition truthy (d : t) : bool := negb (coefficient d =? 0)%Z.
End Decimal.

(** ** fgapp/filters.py *)

(** Case mapping of the database's case-insensitive [LIKE]: the letters
    A to Z and a to z are folded, every other byte is left as it is. *)
Definition upper_ascii (c : ascii) : ascii :=
  let n := N_of_ascii c in
  if ((97 <=? n) && (n <=? 122))%N then ascii_of_N (n - 32) else c.

Definition lower_ascii (c : ascii) : ascii :=
  let n := N_of_ascii c in
  if ((65 <=? n) && (n <=? 90))%N then ascii_of_N (n + 32) else c.

Fixpoint UPPER (s : string) : string :=
  match s with
  | EmptyString => EmptyString
  | String c s' => String (upper_ascii c) (UPPER s')
  end.

Fixpoint LOWER (s : string) : string :=
  match s with
  | EmptyString => EmptyString
  | String c s' => String (lower_ascii c) (LOWER s')
  end.

(** [column LIKE 'pattern%']: the column starts with the (escaped, hence
    literal) pattern. *)
Fixpoint LIKE_prefix (pattern column : string) : bool :=
  match pattern, column with
  | EmptyString, _ => true
  | String p pattern', String c column' =>
      if decide (p = c) then LIKE_prefix pattern' column' else false
  | String _ _, EmptyString => false
  end.

(** The [istartswith] lookup: [UPPER(column) LIKE UPPER('value%')]. *)
Definition istartswith (column value : string) : bool :=
  LIKE_prefix (UPPER value) (UPPER column).

Module RecipeFilterSet.

(** [queryset.filter(favorites__user=user)]: the join of the queryset with
    the favorites of [user], one result row per joined row. *)
Definition filter_favorites__user (db : DB) (user : User.t)
  (queryset : list Recipe.t) : list Recipe.t :=
  r ← queryset;
  _ ← filter (λ f, FavoriteRecipe.recipe f = Recipe.pk r
                   ∧ FavoriteRecipe.user f = User.pk user) (favorites db);
  [r].

(** [queryset.filter(shopping_list__user=user)]. *)
Definition filter_shopping_list__user (db : DB) (user : User.t)
  (queryset : list Recipe.t) : list Recipe.t :=
  r ← queryset;
  _ ← filter (λ c, ShoppingCart.recipe c = Recipe.pk r
                   ∧ ShoppingCart.user c = User.pk user) (shopping_list db);
  [r].

(** The filter methods return a Python object: a queryset, or [None] when
    the method ends in a bare [return].  The guard of both methods is
    [if value and self.request.user.is_authenticated]. *)
Definition filter_is_favorited (db : DB) (request_user : RequestUser)
  (queryset : list Recipe.t) (name : string) (value : Decimal.t)
  : option (list Recipe.t) :=
  match Decimal.truthy value, request_user with
  | true, AuthUser user => Some (filter_favorites__user db user queryset)
  | _, _ => Some queryset
  end.

Definition filter_is_in_shopping_cart (db : DB) (request_user : RequestUser)
  (queryset : list Recipe.t) (name : string) (value : Decimal.t)
  : option (list Recipe.t) :=
  match Decimal.truthy value, request_user with
  | true, AuthUser user => Some (filter_shopping_list__user db user queryset)
  | _, _ => None
  end.

(** How django-filter runs a [method=] filter: an absent parameter leaves
    the queryset alone without calling the method, and the filter set
    asserts that the method gave back a queryset. *)
Definition run_method_filter
  (method : list Recipe.t → string → Decimal.t → option (list Recipe.t))
  (name : string) (queryset : list Recipe.t) (value : option Decimal.t)
  : result (list Recipe.t) :=
  match value with
  | None => Ok queryset
  | Some v =>
      match method queryset name v with
      | Some qs => Ok qs
      | None => Raise AssertionError
      end
  end.

(** [tags = ModelMultipleChoiceFilter(field_name='tags__slug',
    to_field_name='slug', queryset=Tag.objects.all())].

    The form field cleans the submitted slugs into the tags that carry
    them, and rejects the whole form when a slug is not a choice, that is
    not the slug of a row of [Tag.objects.all()]. *)
Definition clean_tags (db : DB) (value : list string) : result (list Tag.t) :=
  match value with
  | [] => Ok []
  | _ :: _ =>
      let qs := filter (λ t, Tag.slug t ∈ value) (tags db) in
      let pks := Tag.slug <$> qs in
      if decide (Forall (λ val, val ∈ pks) value)
      then Ok qs
      else Raise ValidationError
  end.

(** [queryset.filter(Q(tags__slug=s1) | Q(tags__slug=s2) | ...)]: the
    join of the queryset with its tags through [RecipeTags]. *)
Definition filter_tags__slug (db : DB) (slugs : list string)
  (queryset : list Recipe.t) : list Recipe.t :=
  r ← queryset;
  rt ← filter (λ rt, RecipeTags.recipe rt = Recipe.pk r) (recipe_tags db);
  _ ← filter (λ t, Tag.pk t = RecipeTags.tag rt ∧ Tag.slug t ∈ slugs)
        (tags db);
  [r].

(** [MultipleChoiceFilter.filter]: no value is a no-op, otherwise the
    predicates of the chosen tags are OR'd and the result is made
    [distinct()]. *)
Definition filter_tags (db : DB) (queryset : list Recipe.t)
  (value : list Tag.t) : list Recipe.t :=
  match value with
  | [] => queryset
  | _ :: _ =>
      let q := remove_dups (Tag.slug <$> value) in
      remove_dups (filter_tags__slug db q queryset)
  end.

(** The [tags] parameter through the filter backend: an invalid form is
    raised as a validation error (a 400 response). *)
Definition filter_queryset_tags (db : DB) (queryset : list Recipe.t)
  (tags_param : list string) : result (list Recipe.t) :=
  match clean_tags db tags_param with
  | Ok value => Ok (filter_tags db queryset value)
  | Raise e => Raise e
  end.

(** [author], the filter that [fields] of [Meta] generates for the foreign
    key of the recipe to its author: a [ModelChoiceFilter] over all users.
    Its form field cleans an id into the user that has it and rejects the
    id of no user. *)
Definition clean_author (db : DB) (value : option Z)
  : result (option User.t) :=
  match value with
  | None => Ok None
  | Some id =>
      match get (λ u, User.pk u = id) (users db) with
      | Ok u => Ok (Some u)
      | Raise DoesNotExist => Raise ValidationError
      | Raise e => Raise e
      end
  end.

(** [Filter.filter]: no value is a no-op, otherwise
    [queryset.filter(author=value)]. *)
Definition filter_author (queryset : list Recipe.t)
  (value : option User.t) : list Recipe.t :=
  match value with
  | None => queryset
  | Some u => filter (λ r, Recipe.author r = User.pk u) queryset
  end.

(** The query parameters of [Meta.fields], as the request carries them:
    the repeated [tags] values, and each other parameter absent or
    present. *)
Module Params.
Record t := mk {
  tags : list string;
  author : option Z;
  is_favorited : option Decimal.t;
  is_in_shopping_cart : option Decimal.t
}.
End Params.

(** The filter backend on the whole filter set: the form is validated
    (an invalid form is raised as a validation error), then the filters
    run one after the other, in the order of [Meta.fields], each on the
    queryset the one before returned. *)
Definition filter_queryset (db : DB) (request_user : RequestUser)
  (queryset : list Recipe.t) (data : Params.t) : result (list Recipe.t) :=
  match clean_tags db (Params.tags data),
        clean_author db (Params.author data) with
  | Ok tags_value, Ok author_value =>
      let queryset := filter_tags db queryset tags_value in
      let queryset := filter_author queryset author_value in
      match run_method_filter (filter_is_favorited db request_user)
              "is_favorited" queryset (Params.is_favorited data) with
      | Ok queryset =>
          run_method_filter (filter_is_in_shopping_cart db request_user)
            "is_in_shopping_cart" queryset
            (Params.is_in_shopping_cart data)
      | Raise e => Raise e
      end
  | Raise e, _ => Raise e
  | Ok _, Raise e => Raise e
  end.

(** The parameters as the form fields see them in the request: a number
    field ([is_favorited], [is_in_shopping_cart]) is absent, or a text that
    is no finite decimal number, or a number; the [author] choice field is
    absent, or a text that is no id, or an id. *)
Module RawParams.
Inductive number :=
  | NoNumber
  | NotANumber
  | Number (d : Decimal.t).
Inductive id :=
  | NoId
  | NotAnId
  | Id (z : Z).
Record t := mk {
  tags : list string;
  author : id;
  is_favorited : number;
  is_in_shopping_cart : number
}.
End RawParams.




End RecipeFilterSet.

(** ** Form cleaning of a text parameter

    Strings are the UTF-8 bytes of the text.  The characters below are
    those Python's [str.strip] removes, each as its encoding of one, two
    or three bytes. *)
Definition space1 (a : ascii) : bool :=
  let n := N_of_ascii a in
  (((9 <=? n) && (n <=? 13)) || ((28 <=? n) && (n <=? 32)))%N.

Definition space2 (a b : ascii) : bool :=
  let m := N_of_ascii a in
  let n := N_of_ascii b in
  ((m =? 194) && ((n =? 133) || (n =? 160)))%N.

Definition space3 (a b c : ascii) : bool :=
  let l := N_of_ascii a in
  let m := N_of_ascii b in
  let n := N_of_ascii c in
  (((l =? 225) && (m =? 154) && (n =? 128))
   || ((l =? 226) && (m =? 128)
       && (((128 <=? n) && (n <=? 138))
           || (n =? 168) || (n =? 169) || (n =? 175)))
   || ((l =? 226) && (m =? 129) && (n =? 159))
   || ((l =? 227) && (m =? 128) && (n =? 128)))%N.

(** Drop the whitespace characters a string begins with; [backwards]
    reads the bytes of a character in reverse, for a reversed string. *)
Fixpoint strip_front (backwards : bool) (s : string) : string :=
  match s with
  | EmptyString => EmptyString
  | String a s1 =>
      if space1 a then strip_front backwards s1 else
      match s1 with
      | EmptyString => s
      | String b s2 =>
          if (if backwards then space2 b a else space2 a b)
          then strip_front backwards s2 else
          match s2 with
          | EmptyString => s
          | String c s3 =>
              if (if backwards then space3 c b a else space3 a b c)
              then strip_front backwards s3 else s
          end
      end
  end.

Definition lstrip (s : string) : string := strip_front false s.
Definition rstrip (s : string) : string :=
  String.rev (strip_front true (String.rev s)).

(** [str.strip()] *)
Definition strip (s : string) : string := rstrip (lstrip s).

(** ["\x00" in value] *)
Fixpoint has_null (s : string) : bool :=
  match s with
  | EmptyString => false
  | String a s' => (N_of_ascii a =? 0)%N || has_null s'
  end.

Module IngredientSearchFilter.

(** The form field of a [CharFilter], a [forms.CharField] with its
    defaults: [to_python] strips the value, and the field's validator
    refuses a value that holds a null character. *)
Definition clean_name (value : string) : result string :=
  let value := strip value in
  if has_null value then Raise ValidationError else Ok value.

(** [name = CharFilter(lookup_expr='istartswith')] on the cleaned value of
    the [name] parameter; the empty string is one of django-filter's
    [EMPTY_VALUES], for which a filter does nothing. *)
Definition filter_name (queryset : list Ingredient.t) (value : string)
  : list Ingredient.t :=
  match value with
  | EmptyString => queryset
  | String _ _ =>
      filter (λ i, istartswith (Ingredient.name i) value = true) queryset
  end.

(** The [name] parameter through the filter backend: the value is
    cleaned (an invalid form is raised as a validation error), then
    filtered by. *)
Definition filter_queryset_name (queryset : list Ingredient.t)
  (name_param : string) : result (list Ingredient.t) :=
  match clean_name name_param with
  | Ok value => Ok (filter_name queryset value)
  | Raise e => Raise e
  end.

End IngredientSearchFilter.

(** ** fgapp/views.py *)

Definition set_favorites (rows : list FavoriteRecipe.t) (db : DB) : DB :=
  mkDB (users db) (subscriptions db) (recipes db) (tags db) (ingredients db)
       (recipe_ingredients db) (recipe_tags db) rows (shopping_list db).

Definition set_shopping_list (rows : list ShoppingCart.t) (db : DB) : DB :=
  mkDB (users db) (subscriptions db) (recipes db) (tags db) (ingredients db)
       (recipe_ingredients db) (recipe_tags db) (favorites db) rows.

Definition set_subscriptions (rows : list Subscribe.t) (db : DB) : DB :=
  mkDB (users db) rows (recipes db) (tags db) (ingredients db)
       (recipe_ingredients db) (recipe_tags db) (favorites db)
       (shopping_list db).

Definition set_recipes (rows : list Recipe.t) (db : DB) : DB :=
  mkDB (users db) (subscriptions db) rows (tags db) (ingredients db)
       (recipe_ingredients db) (recipe_tags db) (favorites db)
       (shopping_list db).

(** [instance.delete()]: the row with the instance's primary key goes. *)
Definition delete_pk {A} (pk : A → Z) (instance : A) (rows : list A)
  : list A :=
  filter (λ x, pk x ≠ pk instance) rows.

(** The framework around a handler: an [Http404] that leaves the handler
    becomes a 404 response, any other exception a server error. *)
Definition dispatch (handler : M Response) (db : DB) : Response * DB :=
  match handler db with
  | (Ok response, db') => (response, db')
  | (Raise Http404, db') =>
      (mkResponse (Some {[ "detail" := VStr "Not found." ]})
                  HTTP_404_NOT_FOUND, db')
  | (Raise _, db') => (mkResponse None HTTP_500_INTERNAL_SERVER_ERROR, db')
  end.

(** The serializers of [fgapp/serializers.py] are not part of the sources
    at hand; the views use them through this interface. *)
Module serializers.

Class WriteSerializer := {
  (** [is_valid(raise_exception=True)]: the validated data of a payload *)
  run_validation : gmap string value → result (gmap string value);
  (** [create(validated_data)] and [update(instance, validated_data)] *)
  create : gmap string value → M Recipe.t;
  update : Recipe.t → gmap string value → M Recipe.t
}.

Class ReadSerializer := {
  to_representation : Recipe.t → gmap string value
}.

(** [BaseSerializer.save] of the REST framework: the keyword
    arguments are laid over the validated data, then the instance is
    updated, or created when the serializer has none. *)
Definition save `{WriteSerializer} (instance : option Recipe.t)
  (validated_data kwargs : gmap string value) : M Recipe.t :=
  let validated_data := kwargs ∪ validated_data in
  match instance with
  | Some inst => update inst validated_data
  | None => create validated_data
  end.

End serializers.

Module AnnotatedRecipe.
Record t := mk {
  recipe : Recipe.t;
  is_favorited : bool;
  is_in_shopping_cart : bool
}.
End AnnotatedRecipe.

Module RecipeViewSet.

(** [queryset.annotate(is_favorited=..., is_in_shopping_cart=...)]. *)
Definition annotate (is_favorited is_in_shopping_cart : Recipe.t → bool)
  (queryset : list Recipe.t) : list AnnotatedRecipe.t :=
  (λ r, AnnotatedRecipe.mk r (is_favorited r) (is_in_shopping_cart r))
    <$> queryset.

(** The value of the local [queryset] of [get_queryset] when the method
    reaches its last line. *)
Definition annotated_queryset (db : DB) (user : RequestUser)
  : list AnnotatedRecipe.t :=
  let queryset := recipes db in
  match user with
  | AuthUser u =>
      annotate
        (λ r, Exists_ (filter (λ f, FavoriteRecipe.user f = User.pk u
                                    ∧ FavoriteRecipe.recipe f = Recipe.pk r)
                         (favorites db)))
        (λ r, Exists_ (filter (λ c, ShoppingCart.user c = User.pk u
                                    ∧ ShoppingCart.recipe c = Recipe.pk r)
                         (shopping_list db)))
        queryset
  | AnonymousUser =>
      annotate (λ _, false) (λ _, false) queryset
  end.

(** [get_queryset] ends in a bare [return]: what it hands to the caller
    is [None], not the queryset it built. *)
Definition get_queryset (db : DB) (user : RequestUser)
  : option (list AnnotatedRecipe.t) :=
  let queryset := annotated_queryset db user in
  None.

Section with_serializers.
Context `{W : serializers.WriteSerializer}.
Context `{R : serializers.ReadSerializer}.

(** [serializer.save(author=self.request.user)] *)
Definition perform_create (validated_data : gmap string value)
  (user : User.t) : M Recipe.t :=
  serializers.save None validated_data {[ "author" := VUser user ]}.

Definition create (user : User.t) (request_data : gmap string value)
  : M Response :=
  validated_data ← query (λ _, serializers.run_validation request_data);
  instance ← perform_create validated_data user;
  mret (mkResponse (Some (serializers.to_representation instance))
                   HTTP_201_CREATED).

Definition perform_update (instance : Recipe.t)
  (validated_data : gmap string value) (user : User.t) : M Recipe.t :=
  serializers.save (Some instance) validated_data
    {[ "author" := VUser user ]}.

Definition partial_update (user : User.t) (pk : Z)
  (request_data : gmap string value) : M Response :=
  recipe ← query (λ db,
    get_object_or_404 (λ r, Recipe.pk r = pk) (recipes db));
  validated_data ← query (λ _, serializers.run_validation request_data);
  instance ← perform_update recipe validated_data user;
  mret (mkResponse (Some (serializers.to_representation instance))
                   HTTP_200_OK).

End with_serializers.
End RecipeViewSet.

(** The handlers that write take [self.request.user] as a row of the user
    table: they look rows up by it, which only an authenticated user
    allows. *)
Module ShoppingCartViewSet.

(** [get_object_or_404(Recipe, id=self.kwargs.get('recipe_id'))]: the
    recipe of the path; without the keyword the lookup is for the id
    [None], which no row has. *)
Definition get_queryset (kwargs : gmap string Z) : M Recipe.t :=
  query (λ db,
    get_object_or_404 (λ r, Some (Recipe.pk r) = kwargs !! "recipe_id")
      (recipes db)).

Definition delete (user : User.t) (recipe_id : Z) : M Response :=
  recipe ← query (λ db,
    get_object_or_404 (λ r, Recipe.pk r = recipe_id) (recipes db));
  try_except
    (query (λ db,
       get_object_or_404
         (λ c, ShoppingCart.user c = User.pk user
               ∧ ShoppingCart.recipe c = Recipe.pk recipe)
         (shopping_list db)))
    Http404
    (let msg := "Рецепт (" ++ Recipe.name recipe
                ++ ") уже отсутствует в списке покупок." in
     mret (mkResponse (Some {[ "errors" := VStr msg ]}) HTTP_400_BAD_REQUEST))
    (λ cart_item,
       execute (λ db,
         set_shopping_list
           (delete_pk ShoppingCart.pk cart_item (shopping_list db)) db);;
       mret (mkResponse None HTTP_204_NO_CONTENT)).

End ShoppingCartViewSet.

Module FavoriteRecipeViewSet.

Definition get_queryset (kwargs : gmap string Z) : M Recipe.t :=
  query (λ db,
    get_object_or_404 (λ r, Some (Recipe.pk r) = kwargs !! "recipe_id")
      (recipes db)).

Definition delete (user : User.t) (recipe_id : Z) : M Response :=
  recipe ← query (λ db,
    get_object_or_404 (λ r, Recipe.pk r = recipe_id) (recipes db));
  try_except
    (query (λ db,
       get_object_or_404
         (λ f, FavoriteRecipe.user f = User.pk user
               ∧ FavoriteRecipe.recipe f = Recipe.pk recipe)
         (favorites db)))
    Http404
    (let msg := "Рецепт (" ++ Recipe.name recipe
                ++ ") уже отсутствует в избранном." in
     mret (mkResponse (Some {[ "errors" := VStr msg ]}) HTTP_400_BAD_REQUEST))
    (λ favorite,
       execute (λ db,
         set_favorites
           (delete_pk FavoriteRecipe.pk favorite (favorites db)) db);;
       mret (mkResponse None HTTP_204_NO_CONTENT)).

End FavoriteRecipeViewSet.

Module SubscriptionsViewSet.

(** [self.request.user.subscriber] is the reverse side of the [user]
    column of [Subscribe] (the column the [delete] of [SubscribeViewSet]
    puts the caller in): the caller's subscription rows. *)
Definition get_queryset (db : DB) (user : User.t) : list User.t :=
  let subs_query :=
    filter (λ s, Subscribe.user s = User.pk user) (subscriptions db) in
  let subs_id_list := Subscribe.subscribing <$> subs_query in
  filter (λ u, User.pk u ∈ subs_id_list) (users db).

End SubscriptionsViewSet.

Module SubscribeViewSet.

Definition get_queryset (kwargs : gmap string Z) : M User.t :=
  query (λ db,
    get_object_or_404 (λ u, Some (User.pk u) = kwargs !! "user_id")
      (users db)).

Section with_str.
(** [str(user)], the [__str__] of the user model. *)
Context (User__str__ : User.t → string).

Definition delete (user : User.t) (user_id : Z) : M Response :=
  author_for_unsubs ← query (λ db,
    get_object_or_404 (λ u, User.pk u = user_id) (users db));
  try_except
    (query (λ db,
       get_object_or_404
         (λ s, Subscribe.user s = User.pk user
               ∧ Subscribe.subscribing s = User.pk author_for_unsubs)
         (subscriptions db)))
    Http404
    (let msg := "Автор " ++ User__str__ author_for_unsubs
                ++ " отсутствут в Ваших подписках." in
     mret (mkResponse (Some {[ "errors" := VStr msg ]}) HTTP_400_BAD_REQUEST))
    (λ subscribe,
       execute (λ db,
         set_subscriptions
           (delete_pk Subscribe.pk subscribe (subscriptions db)) db);;
       mret (mkResponse None HTTP_204_NO_CONTENT)).

End with_str.
End SubscribeViewSet.

(** The shape the three [delete] handlers share, over the table of
    targets and the membership table of each. *)
Section toggle.
Context {T Mb : Type}.
Context (targets : DB → list T) (target_pk : T → Z).
Context (rows : DB → list Mb) (row_pk : Mb → Z).
Context (set_rows : list Mb → DB → DB).
Context (is_member : T → Mb → Prop) `{∀ t m, Decision (is_member t m)}.
Context (message : T → string).

Definition toggle_delete (id : Z) : M Response :=
  target ← query (λ db,
    get_object_or_404 (λ t, target_pk t = id) (targets db));
  try_except
    (query (λ db, get_object_or_404 (is_member target) (rows db)))
    Http404
    (let msg := message target in
     mret (mkResponse (Some {[ "errors" := VStr msg ]}) HTTP_400_BAD_REQUEST))
    (λ row,
       execute (λ db, set_rows (delete_pk row_pk row (rows db)) db);;
       mret (mkResponse None HTTP_204_NO_CONTENT)).

End toggle.

(** ** fgapp/admin.py *)

Module IngredientsInLine.
(** [class IngredientsInLine(admin.TabularInline)] over
    [RecipeIngredients] *)
Definition min_num : nat := 1.
End IngredientsInLine.

Module TagsInLine.
(** [class TagsInLine(admin.TabularInline)] over [RecipeTags]: it sets no
    [min_num], which leaves the formset's default. *)
Definition min_num : nat := 0.
End TagsInLine.

(** The next value of an automatic primary key column. *)
Definition next_pk {A} (pk : A → Z) (rows : list A) : Z :=
  1 + foldr (λ x m, Z.max (pk x) m) 0 rows.

(** The inline formsets of the admin, as Django's [BaseFormSet] treats the
    forms a request posts.  The request says how many forms it posts (the
    management form's [TOTAL_FORMS]); the add page has no initial form. *)
Module formsets.

(** A posted form: left blank as it was rendered, or changed, with what
    its fields clean to ([None] when they do not validate) and its
    [DELETE] box.  A ticked [DELETE] box is a change. *)
Inductive posted (A : Type) :=
  | Unchanged
  | Changed (cleaned : option A) (DELETE : bool).
Arguments Unchanged {A}.
Arguments Changed {A} cleaned DELETE.

(** [_should_delete_form] *)
Definition should_delete {A} (f : posted A) : bool :=
  match f with
  | Changed _ true => true
  | _ => false
  end.

(** The errors of form number [i].  [_construct_form] lets a form stay
    empty only from number [min_num] on, so a blank form below [min_num]
    is cleaned and fails on the fields it requires. *)
Definition has_errors {A} (min_num i : nat) (f : posted A) : bool :=
  match f with
  | Unchanged => (i <? min_num)%nat
  | Changed (Some _) _ => false
  | Changed None _ => true
  end.

(** [is_valid]: no form has errors, but for the forms to delete, whose
    errors [full_clean] passes over.  The number of forms is not checked:
    the admin builds the inline formsets without [validate_min]. *)
Definition is_valid {A} (min_num : nat) (forms : list (posted A)) : bool :=
  forallb (λ ok, ok)
    (imap (λ i f, should_delete f || negb (has_errors min_num i f)) forms).

(** [save_new_objects]: the changed forms that are not to be deleted. *)
Definition new_objects {A} (forms : list (posted A)) : list A :=
  omap (λ f, match f with
             | Changed (Some x) false => Some x
             | _ => None
             end) forms.

End formsets.

Module RecipeAdmin.

(** What the recipe form of the add page cleans to. *)
Record recipe_form := mk_recipe_form {
  form_author : pk_t;
  form_name : string;
  form_text : string;
  form_pub_date : Z
}.

(** One filled inline form of [IngredientsInLine]. *)
Record inline := mk_inline { ingredient : pk_t; amount : Z }.

Definition set_recipe_ingredients (rows : list RecipeIngredients.t)
  (db : DB) : DB :=
  mkDB (users db) (subscriptions db) (recipes db) (tags db) (ingredients db)
       rows (recipe_tags db) (favorites db) (shopping_list db).

Definition set_recipe_tags (rows : list RecipeTags.t) (db : DB) : DB :=
  mkDB (users db) (subscriptions db) (recipes db) (tags db) (ingredients db)
       (recipe_ingredients db) rows (favorites db) (shopping_list db).

Fixpoint save_inlines (recipe : pk_t) (inlines : list inline)
  (rows : list RecipeIngredients.t) : list RecipeIngredients.t :=
  match inlines with
  | [] => rows
  | i :: inlines' =>
      let row := RecipeIngredients.mk (next_pk RecipeIngredients.pk rows)
                   recipe (ingredient i) (amount i) in
      save_inlines recipe inlines' (rows ++ [row])%list
  end.

Fixpoint save_tag_inlines (recipe : pk_t) (inlines : list pk_t)
  (rows : list RecipeTags.t) : list RecipeTags.t :=
  match inlines with
  | [] => rows
  | tag :: inlines' =>
      let row := RecipeTags.mk (next_pk RecipeTags.pk rows) recipe tag in
      save_tag_inlines recipe inlines' (rows ++ [row])%list
  end.

(** The add view of [RecipeAdmin] with [inlines = [IngredientsInLine,
    TagsInLine]]: when the recipe form and the two inline formsets are
    valid the recipe is saved, then the new objects of the formsets;
    otherwise nothing is saved (the page is shown again with the errors,
    here a validation error). *)
Definition add_view (form : option recipe_form)
  (ingredient_forms : list (formsets.posted inline))
  (tag_forms : list (formsets.posted pk_t)) : M Recipe.t :=
  match form with
  | Some cleaned =>
      if formsets.is_valid IngredientsInLine.min_num ingredient_forms
         && formsets.is_valid TagsInLine.min_num tag_forms
      then λ db,
        let recipe := Recipe.mk (next_pk Recipe.pk (recipes db))
                        (form_author cleaned) (form_name cleaned)
                        (form_text cleaned) (form_pub_date cleaned) in
        let lines := save_inlines (Recipe.pk recipe)
                       (formsets.new_objects ingredient_forms)
                       (recipe_ingredients db) in
        let tag_rows := save_tag_inlines (Recipe.pk recipe)
                          (formsets.new_objects tag_forms)
                          (recipe_tags db) in
        (Ok recipe,
         set_recipe_tags tag_rows
           (set_recipe_ingredients lines
              (set_recipes (recipes db ++ [recipe])%list db)))
      else raise ValidationError
  | None => raise ValidationError
  end.

End RecipeAdmin.

(** ** A model serializer

    An instance of the serializer interface that behaves as the REST
    framework's [ModelSerializer] does on the columns of [Recipe]: [create]
    inserts a row built from the validated data, [update] sets the
    attributes the validated data names and saves the row. *)
Module ModelSerializer.

(** Modelled from the spec: the validation of the write serializer of
    recipes ([RecipePostSerializer] of [fgapp/serializers.py], which is
    not in the sources).  A recipe has a name and a text, so a payload
    without them is malformed; every other entry of the payload, an author
    too, is let through to the validated data. *)
Definition run_validation (data : gmap string value)
  : result (gmap string value) :=
  match data !! "name", data !! "text" with
  | Some (VStr _), Some (VStr _) => Ok data
  | _, _ => Raise ValidationError
  end.

(** Modelled from the spec: [create] of the write serializer (not in the
    sources).  The recipe is built from the validated data it is given,
    its author the one that data names, and is stored as a new row under
    the next primary key. *)
Definition create (validated_data : gmap string value) : M Recipe.t :=
  λ db,
    match validated_data !! "author", validated_data !! "name",
          validated_data !! "text" with
    | Some (VUser u), Some (VStr n), Some (VStr t) =>
        let r := Recipe.mk (next_pk Recipe.pk (recipes db)) (User.pk u) n t 0 in
        (Ok r, set_recipes (recipes db ++ [r])%list db)
    | _, _, _ => (Raise ValidationError, db)
    end.

Definition setattrs (instance : Recipe.t)
  (validated_data : gmap string value) : Recipe.t :=
  Recipe.mk (Recipe.pk instance)
    (match validated_data !! "author" with
     | Some (VUser u) => User.pk u
     | _ => Recipe.author instance
     end)
    (match validated_data !! "name" with
     | Some (VStr n) => n
     | _ => Recipe.name instance
     end)
    (match validated_data !! "text" with
     | Some (VStr t) => t
     | _ => Recipe.text instance
     end)
    (Recipe.pub_date instance).

(** Modelled from the spec: [update] of the write serializer (not in the
    sources).  The attributes the validated data names are set on the
    instance, which is saved in the place of the row with its primary
    key. *)
Definition update (instance : Recipe.t)
  (validated_data : gmap string value) : M Recipe.t :=
  λ db,
    let r := setattrs instance validated_data in
    (Ok r,
     set_recipes
       (r :: filter (λ x, Recipe.pk x ≠ Recipe.pk r) (recipes db)) db).

Definition write_serializer : serializers.WriteSerializer :=
  {| serializers.run_validation := run_validation;
     serializers.create := create;
     serializers.update := update |}.

Definition read_serializer : serializers.ReadSerializer :=
  {| serializers.to_representation r :=
       {[ "id" := VInt (Recipe.pk r);
          "author" := VInt (Recipe.author r);
          "name" := VStr (Recipe.name r);
          "text" := VStr (Recipe.text r) ]} |}.

End ModelSerializer.

(** ** Vocabulary of the properties *)

(** [sub] occurs in [s]: the message names it. *)
Definition names (s sub : string) : Prop :=
  ∃ pre post, s = pre ++ sub ++ post.


(** The recipe carries a tag whose slug is one of [slugs]. *)
Definition tagged_with_any (db : DB) (r : Recipe.t) (slugs : list string)
  : Prop :=
  ∃ rt t, rt ∈ recipe_tags db ∧ t ∈ tags db
          ∧ RecipeTags.recipe rt = Recipe.pk r
          ∧ RecipeTags.tag rt = Tag.pk t
          ∧ Tag.slug t ∈ slugs.

(** The contract of a membership delete, for the request on the target
    [id] that took the store [db] to the response and store [out]:
    not found when no target has the id; a 400 whose [errors] message
    names the target when the caller has no membership row for it;
    otherwise a bare 204 after which the row is gone, the other rows of
    the table are kept, and no membership row of the caller for the target
    remains. *)
Definition delete_contract {T Mb} (targets : list T) (target_pk : T → Z)
  (target_name : T → string) (table : DB → list Mb) (row_pk : Mb → Z)
  (is_row : Mb → Prop) (id : Z) (db : DB) (out : Response * DB) : Prop :=
  ((∀ t, t ∈ targets → target_pk t ≠ id) →
   status out.1 = HTTP_404_NOT_FOUND)
  ∧ (∀ t, t ∈ targets → target_pk t = id →
     ((∀ m, m ∈ table db → ¬ is_row m) →
      status out.1 = HTTP_400_BAD_REQUEST
      ∧ ∃ msg, data out.1 = Some {[ "errors" := VStr msg ]}
               ∧ names msg (target_name t))
     ∧ (∀ m, m ∈ table db → is_row m →
        out.1 = mkResponse None HTTP_204_NO_CONTENT
        ∧ (∀ x, x ∈ table out.2 ↔ x ∈ table db ∧ row_pk x ≠ row_pk m)
        ∧ (∀ x, x ∈ table out.2 → ¬ is_row x))).

(** The store [db'] is [db] but for the table [table], and that table
    only lost rows. *)
Definition only_shrinks {Mb} (table : DB → list Mb)
  (set_table : list Mb → DB → DB) (db db' : DB) : Prop :=
  db' = set_table (table db') db ∧ sublist (table db') (table db).

(** Modelled from the spec: the constraints of the model declarations
    ([fgapp/models.py] and [users/models.py] are not in the sources).
    Primary keys identify the rows of the tables the handlers look targets
    up in, and a membership table holds a (user, target) pair at most
    once. *)
Record integrity (db : DB) : Prop := {
  users_pk : NoDup (User.pk <$> users db);
  recipes_pk : NoDup (Recipe.pk <$> recipes db);
  favorites_unique :
    NoDup ((λ f, (FavoriteRecipe.user f, FavoriteRecipe.recipe f))
             <$> favorites db);
  shopping_list_unique :
    NoDup ((λ c, (ShoppingCart.user c, ShoppingCart.recipe c))
             <$> shopping_list db);
  subscriptions_unique :
    NoDup ((λ s, (Subscribe.user s, Subscribe.subscribing s))
             <$> subscriptions db)
}.



Definition empty_db : DB := mkDB [] [] [] [] [] [] [] [] [].

(** ** A small store for the examples *)

Module Sample.

Definition alice : User.t := User.mk 1 "alice" "Alice" "A" "alice@example.org".
Definition bob : User.t := User.mk 2 "bob" "Bob" "B" "bob@example.org".
Definition carol : User.t := User.mk 3 "carol" "Carol" "C" "carol@example.org".

Definition porridge : Recipe.t := Recipe.mk 1 1 "Porridge" "Boil the oats." 100.
Definition soup : Recipe.t := Recipe.mk 2 2 "Soup" "Simmer." 200.

Definition breakfast : Tag.t := Tag.mk 1 "Breakfast" "breakfast".
Definition lunch : Tag.t := Tag.mk 2 "Lunch" "lunch".

Definition milk : Ingredient.t := Ingredient.mk 1 "Milk" "ml".
Definition milkshake : Ingredient.t := Ingredient.mk 2 "MILKSHAKE" "ml".
Definition almilk : Ingredient.t := Ingredient.mk 3 "Almilk" "ml".

Definition db : DB :=
  {| users := [alice; bob; carol];
     subscriptions := [Subscribe.mk 1 1 2];
     recipes := [porridge; soup];
     tags := [breakfast; lunch];
     ingredients := [milk; milkshake; almilk];
     recipe_ingredients :=
       [RecipeIngredients.mk 1 1 1 200; RecipeIngredients.mk 2 2 1 50];
     recipe_tags := [RecipeTags.mk 1 1 1; RecipeTags.mk 2 2 2];
     favorites := [FavoriteRecipe.mk 1 1 2];
     shopping_list := [ShoppingCart.mk 1 1 1] |}.

(** A payload that names alice as the author. *)
Definition tea_payload : gmap string value :=
  {[ "name" := VStr "Tea"; "text" := VStr "Brew.";
     "author" := VUser alice ]}.

End Sample.

(** * Properties *)

(** ** Lookups in a table *)

(** A column (or tuple of columns) without repeated values identifies the
    rows. *)
Lemma NoDup_fmap_elem_inj {A B} (g : A → B) (l : list A) x y :
  NoDup (g <$> l) → x ∈ l → y ∈ l → g x = g y → x = y.
Proof.
  induction l as [|a l IH]; csimpl; intros Hnd Hx Hy Hg.
  - by apply not_elem_of_nil in Hx.
  - apply NoDup_cons in Hnd as [Ha Hnd].
    apply elem_of_cons in Hx as [->|Hx], Hy as [->|Hy]; auto.
    + exfalso. apply Ha. rewrite Hg. by apply list_elem_of_fmap_2.
    + exfalso. apply Ha. rewrite <- Hg. by apply list_elem_of_fmap_2.
Qed.

Lemma NoDup_all_equal {A} (l : list A) m :
  NoDup l → m ∈ l → (∀ x, x ∈ l → x = m) → l = [m].
Proof.
  intros Hnd Hm Hall. destruct l as [|a l]; [by apply not_elem_of_nil in Hm|].
  assert (a = m) as -> by (apply Hall; left).
  destruct l as [|b l]; [done|].
  assert (b = m) as -> by (apply Hall; right; left).
  apply NoDup_cons in Hnd as [Hnd _]. exfalso. apply Hnd. left.
Qed.

Lemma get_DoesNotExist {A} (P : A → Prop) `{∀ x, Decision (P x)} rows :
  (∀ x, x ∈ rows → ¬ P x) → get P rows = Raise DoesNotExist.
Proof.
  intros Hno. unfold get.
  destruct (filter P rows) as [|x l] eqn:Hf; [done|].
  assert (x ∈ filter P rows) as Hx by (rewrite Hf; left).
  apply list_elem_of_filter in Hx as [HP Hx]. by destruct (Hno x Hx).
Qed.

Lemma get_Ok {A B} (P : A → Prop) `{∀ x, Decision (P x)} (g : A → B) k
    rows m :
  NoDup (g <$> rows) → (∀ x, P x → g x = k) → m ∈ rows → P m →
  get P rows = Ok m.
Proof.
  intros Hnd Hk Hm HP. unfold get.
  rewrite (NoDup_all_equal (filter P rows) m); [done| | |].
  - by apply NoDup_filter, (NoDup_fmap_1 g).
  - by apply list_elem_of_filter.
  - intros x [HPx Hx]%list_elem_of_filter.
    apply (NoDup_fmap_elem_inj g rows); auto.
    by rewrite (Hk x HPx), (Hk m HP).
Qed.

(** [get] answers with a row of the table that satisfies the lookup. *)
Lemma get_Ok_inv {A} (P : A → Prop) `{∀ x, Decision (P x)} rows m :
  get P rows = Ok m → m ∈ rows ∧ P m.
Proof.
  unfold get. destruct (filter P rows) as [|x [|y l]] eqn:Hf; try done.
  intros [= ->].
  assert (m ∈ filter P rows) as Hx by (rewrite Hf; left).
  apply list_elem_of_filter in Hx as [? ?]. done.
Qed.

(** ** Recipe filter *)

(** Membership in a join [r ← qs; _ ← filter P rows; [r]]. *)
Ltac join_membership :=
  rewrite list_elem_of_bind; split;
  [ intros (? & Hin & ?);
    apply list_elem_of_bind in Hin as (? & Hr & Hrow);
    apply list_elem_of_singleton in Hr as ->;
    apply list_elem_of_filter in Hrow as [[? ?] ?]; eauto 10
  | intros (? & row & ? & ? & ?);
    eexists; split; [|eassumption];
    apply list_elem_of_bind; exists row;
    split; [by apply list_elem_of_singleton | by apply list_elem_of_filter] ].

Lemma elem_of_filter_favorites__user db user qs r :
  r ∈ RecipeFilterSet.filter_favorites__user db user qs
  ↔ r ∈ qs ∧ ∃ f, f ∈ favorites db
                  ∧ FavoriteRecipe.user f = User.pk user
                  ∧ FavoriteRecipe.recipe f = Recipe.pk r.
Proof. unfold RecipeFilterSet.filter_favorites__user. join_membership. Qed.

Lemma elem_of_filter_shopping_list__user db user qs r :
  r ∈ RecipeFilterSet.filter_shopping_list__user db user qs
  ↔ r ∈ qs ∧ ∃ c, c ∈ shopping_list db
                  ∧ ShoppingCart.user c = User.pk user
                  ∧ ShoppingCart.recipe c = Recipe.pk r.
Proof. unfold RecipeFilterSet.filter_shopping_list__user. join_membership. Qed.

(** C5. The [is_favorited] filter with value 1 and an authenticated caller
    returns exactly the recipes of the queryset that the caller has a
    favorite row for; with a falsy value or an anonymous caller it returns
    the queryset unchanged. *)
Theorem filter_is_favorited_spec (db : DB) (qs : list Recipe.t)
    (name : string) :
  (∀ u, ∃ out,
      RecipeFilterSet.filter_is_favorited db (AuthUser u) qs name
        (Decimal.of_Z 1) = Some out
      ∧ ∀ r, r ∈ out
             ↔ r ∈ qs ∧ ∃ f, f ∈ favorites db
                             ∧ FavoriteRecipe.user f = User.pk u
                             ∧ FavoriteRecipe.recipe f = Recipe.pk r)
  ∧ (∀ user value,
      Decimal.truthy value = false ∨ is_authenticated user = false →
      RecipeFilterSet.filter_is_favorited db user qs name value = Some qs).
Proof.
  split.
  - intros u. eexists. split; [reflexivity|].
    intros r. apply elem_of_filter_favorites__user.
  - intros user value [Hv | Hu]; unfold RecipeFilterSet.filter_is_favorited.
    + by rewrite Hv.
    + destruct user; [|discriminate]. by destruct (Decimal.truthy value).
Qed.

Lemma filter_is_favorited_spec_witness :
  (Decimal.truthy (Decimal.mk 0 2) = false
   ∨ is_authenticated (AuthUser Sample.alice) = false)
  ∧ RecipeFilterSet.filter_is_favorited Sample.db (AuthUser Sample.alice)
      (recipes Sample.db) "is_favorited" (Decimal.mk 0 2)
    = Some (recipes Sample.db).
Proof.
  split; [left; reflexivity|].
  apply (proj2 (filter_is_favorited_spec Sample.db (recipes Sample.db)
                  "is_favorited")).
  left; reflexivity.
Defined.

(** The filter on the sample store: alice has one favorite, the soup. *)
Example filter_is_favorited_alice :
  RecipeFilterSet.filter_is_favorited Sample.db (AuthUser Sample.alice)
    (recipes Sample.db) "is_favorited" (Decimal.of_Z 1)
  = Some [Sample.soup].
Proof. reflexivity. Qed.

(** Any truthy value filters as 1 does. *)
Lemma filter_is_favorited_truthy db u qs name value :
  Decimal.truthy value = true →
  RecipeFilterSet.filter_is_favorited db (AuthUser u) qs name value
  = Some (RecipeFilterSet.filter_favorites__user db u qs).
Proof. intros Hv. unfold RecipeFilterSet.filter_is_favorited. by rewrite Hv. Qed.

(** With the pairs of the favorites table unique the join has no repeated
    row. *)
Lemma filter_favorites__user_NoDup db u qs :
  NoDup ((λ f, (FavoriteRecipe.user f, FavoriteRecipe.recipe f))
           <$> favorites db) →
  NoDup qs →
  NoDup (RecipeFilterSet.filter_favorites__user db u qs).
Proof.
  intros Hfav Hqs. unfold RecipeFilterSet.filter_favorites__user.
  apply NoDup_bind; [| |done].
  - intros r1 r2 r Hr1 Hr2 H1 H2.
    apply list_elem_of_bind in H1 as (? & H1 & _).
    apply list_elem_of_bind in H2 as (? & H2 & _).
    apply list_elem_of_singleton in H1, H2. congruence.
  - intros r Hr.
    apply NoDup_bind.
    + intros f1 f2 x [[? ?] ?]%list_elem_of_filter
        [[? ?] ?]%list_elem_of_filter _ _.
      apply (NoDup_fmap_elem_inj _ _ _ _ Hfav); auto. simpl. congruence.
    + intros; apply NoDup_singleton.
    + by apply NoDup_filter, (NoDup_fmap_1 _ _ Hfav).
Qed.

(** The part of the cart filter that works: with value 1 and an
    authenticated caller it gives the recipes in the caller's cart. *)
Lemma filter_is_in_shopping_cart_authenticated db u qs name :
  ∃ out,
    RecipeFilterSet.filter_is_in_shopping_cart db (AuthUser u) qs name
      (Decimal.of_Z 1) = Some out
    ∧ ∀ r, r ∈ out
           ↔ r ∈ qs ∧ ∃ c, c ∈ shopping_list db
                           ∧ ShoppingCart.user c = User.pk u
                           ∧ ShoppingCart.recipe c = Recipe.pk r.
Proof.
  eexists. split; [reflexivity|].
  intros r. apply elem_of_filter_shopping_list__user.
Qed.

(** In every other case the method gives back no queryset at all, and the
    filter set's check of the method's result fails. *)
Lemma filter_is_in_shopping_cart_no_queryset db user qs name value :
  Decimal.truthy value = false ∨ is_authenticated user = false →
  RecipeFilterSet.filter_is_in_shopping_cart db user qs name value = None
  ∧ RecipeFilterSet.run_method_filter
      (RecipeFilterSet.filter_is_in_shopping_cart db user) name qs
      (Some value) = Raise AssertionError.
Proof.
  intros Hcase.
  assert (RecipeFilterSet.filter_is_in_shopping_cart db user qs name value
          = None) as Hnone.
  { unfold RecipeFilterSet.filter_is_in_shopping_cart.
    destruct Hcase as [-> | Hu]; [done|].
    destruct user; [|discriminate]. by destruct (Decimal.truthy value). }
  split; [done|]. unfold RecipeFilterSet.run_method_filter. by rewrite Hnone.
Qed.

(** C2. On the sample store the cart filter asked by an anonymous caller
    (value 1), or by alice with value 0, returns [None] where the
    favorites filter returns the queryset unchanged, and run through the
    filter set it ends in a failed assertion instead of the unfiltered
    queryset. *)
Theorem filter_is_in_shopping_cart_returns_None :
  let qs := recipes Sample.db in
  RecipeFilterSet.filter_is_in_shopping_cart Sample.db AnonymousUser qs
    "is_in_shopping_cart" (Decimal.of_Z 1) = None
  ∧ RecipeFilterSet.filter_is_in_shopping_cart Sample.db
      (AuthUser Sample.alice) qs "is_in_shopping_cart" (Decimal.of_Z 0)
    = None
  ∧ RecipeFilterSet.filter_is_favorited Sample.db AnonymousUser qs
      "is_favorited" (Decimal.of_Z 1) = Some qs
  ∧ RecipeFilterSet.filter_is_favorited Sample.db (AuthUser Sample.alice)
      qs "is_favorited" (Decimal.of_Z 0) = Some qs
  ∧ RecipeFilterSet.run_method_filter
      (RecipeFilterSet.filter_is_in_shopping_cart Sample.db AnonymousUser)
      "is_in_shopping_cart" qs (Some (Decimal.of_Z 1))
    = Raise AssertionError.
Proof. repeat split. Qed.

(** ** Recipe view set *)

Lemma Exists_filter_true {A} (P : A → Prop) `{∀ x, Decision (P x)} rows :
  Exists_ (filter P rows) = true ↔ ∃ x, x ∈ rows ∧ P x.
Proof.
  split.
  - destruct (filter P rows) as [|x l] eqn:Hf; [done|]. intros _.
    assert (x ∈ filter P rows) as Hx by (rewrite Hf; left).
    apply list_elem_of_filter in Hx as [? ?]. eauto.
  - intros (x & Hx & HP).
    assert (x ∈ filter P rows) as Hin by by apply list_elem_of_filter.
    by destruct (filter P rows); [apply not_elem_of_nil in Hin|].
Qed.

(** The queryset that [get_queryset] builds carries the flags: it lists
    all recipes, and for an authenticated user each flag tells whether a
    favorite (cart) row of that user exists for the recipe; for an
    anonymous user both flags are false. *)
Lemma annotated_queryset_flags db user :
  AnnotatedRecipe.recipe <$> RecipeViewSet.annotated_queryset db user
  = recipes db
  ∧ ∀ a, a ∈ RecipeViewSet.annotated_queryset db user →
      match user with
      | AuthUser u =>
          (AnnotatedRecipe.is_favorited a = true
           ↔ ∃ f, f ∈ favorites db
                  ∧ FavoriteRecipe.user f = User.pk u
                  ∧ FavoriteRecipe.recipe f
                    = Recipe.pk (AnnotatedRecipe.recipe a))
          ∧ (AnnotatedRecipe.is_in_shopping_cart a = true
             ↔ ∃ c, c ∈ shopping_list db
                    ∧ ShoppingCart.user c = User.pk u
                    ∧ ShoppingCart.recipe c
                      = Recipe.pk (AnnotatedRecipe.recipe a))
      | AnonymousUser =>
          AnnotatedRecipe.is_favorited a = false
          ∧ AnnotatedRecipe.is_in_shopping_cart a = false
      end.
Proof.
  unfold RecipeViewSet.annotated_queryset, RecipeViewSet.annotate. split.
  - destruct user; rewrite <- list_fmap_compose; apply list_fmap_id.
  - intros a Ha. destruct user as [|u];
      apply list_elem_of_fmap in Ha as (r & -> & Hr); simpl; [done|].
    rewrite !Exists_filter_true. naive_solver.
Qed.

(** C1. Whatever the store and the requesting user, [get_queryset] of the
    recipe view set returns [None]: the annotated queryset it built is
    dropped by the bare [return]. *)
Theorem get_queryset_returns_None (db : DB) (user : RequestUser) :
  RecipeViewSet.get_queryset db user = None.
Proof. reflexivity. Qed.

(** ** Subscriptions list *)

(** C8. The subscriptions list of a user is exactly the set of user
    records whose id is the [subscribing] column of one of that user's
    [Subscribe] rows; it is taken out of the user table in order, so it
    repeats no record that the table does not repeat. *)
Theorem subscriptions_get_queryset_spec (db : DB) (a : User.t) :
  (∀ u, u ∈ SubscriptionsViewSet.get_queryset db a
        ↔ u ∈ users db
          ∧ ∃ s, s ∈ subscriptions db
                 ∧ Subscribe.user s = User.pk a
                 ∧ Subscribe.subscribing s = User.pk u)
  ∧ sublist (SubscriptionsViewSet.get_queryset db a) (users db).
Proof.
  unfold SubscriptionsViewSet.get_queryset. split.
  - intros u. rewrite list_elem_of_filter, list_elem_of_fmap. split.
    + intros [(s & Hs & [? ?]%list_elem_of_filter) Hu]. eauto 10.
    + intros (Hu & s & Hs & Hsu & Hsub). split; [|done].
      exists s. split; [done|]. by apply list_elem_of_filter.
  - apply sublist_filter.
Qed.

Example subscriptions_alice :
  SubscriptionsViewSet.get_queryset Sample.db Sample.alice = [Sample.bob].
Proof. reflexivity. Qed.

(** ** Ingredient filter *)

Lemma lower_upper_ascii c : lower_ascii (upper_ascii c) = lower_ascii c.
Proof. by destruct c as [[] [] [] [] [] [] [] []]. Qed.

Lemma upper_lower_ascii c : upper_ascii (lower_ascii c) = upper_ascii c.
Proof. by destruct c as [[] [] [] [] [] [] [] []]. Qed.

Lemma upper_eq_lower_eq a c :
  upper_ascii a = upper_ascii c ↔ lower_ascii c = lower_ascii a.
Proof.
  split; intros Heq.
  - by rewrite <- (lower_upper_ascii c), <- Heq, lower_upper_ascii.
  - by rewrite <- (upper_lower_ascii a), <- Heq, upper_lower_ascii.
Qed.



(** [strip] only takes from the two ends: the value is the stripped
    value with something before and something after it. *)
Lemma strip_front_suffix backwards s :
  ∃ pre, s = pre ++ strip_front backwards s.
Proof.
  assert (∀ n s, (String.length s ≤ n)%nat →
                 ∃ pre, s = pre ++ strip_front backwards s) as Hgen.
  { clear s. induction n as [|n IH]; intros s Hlen.
    - destruct s; [by exists ""|simpl in Hlen; lia].
    - destruct s as [|a s1]; [by exists ""|]. simpl in Hlen. simpl.
      destruct (space1 a).
      { destruct (IH s1) as [pre Hpre]; [lia|].
        exists (String a pre).
        change (String a s1 = String a (pre ++ strip_front backwards s1)).
        by rewrite <- Hpre. }
      destruct s1 as [|b s2]; [by exists ""|]. simpl in Hlen.
      destruct (if backwards then space2 b a else space2 a b).
      { destruct (IH s2) as [pre Hpre]; [lia|].
        exists (String a (String b pre)).
        change (String a (String b s2)
                = String a (String b (pre ++ strip_front backwards s2))).
        by rewrite <- Hpre. }
      destruct s2 as [|c s3]; [by exists ""|]. simpl in Hlen.
      destruct (if backwards then space3 c b a else space3 a b c).
      { destruct (IH s3) as [pre Hpre]; [lia|].
        exists (String a (String b (String c pre))).
        change (String a (String b (String c s3))
                = String a (String b (String c
                    (pre ++ strip_front backwards s3)))).
        by rewrite <- Hpre. }
      by exists "". }
  by apply (Hgen (String.length s)).
Qed.

Lemma string_app_assoc (s1 s2 s3 : string) :
  (s1 ++ s2) ++ s3 = s1 ++ (s2 ++ s3).
Proof.
  induction s1 as [|a s1 IH]; [done|].
  change (String a ((s1 ++ s2) ++ s3) = String a (s1 ++ (s2 ++ s3))).
  by rewrite IH.
Qed.

Lemma rev_app_append s1 s2 : String.rev_app s1 s2 = String.rev s1 ++ s2.
Proof.
  unfold String.rev. revert s2.
  induction s1 as [|a s1 IH]; intros s2; [done|]. simpl.
  by rewrite (IH (String a "")), IH, string_app_assoc.
Qed.

Lemma rev_app_app s1 s2 s3 :
  String.rev_app (s1 ++ s2) s3
  = String.rev_app s2 (String.rev_app s1 s3).
Proof.
  revert s3. induction s1 as [|a s1 IH]; intros s3; [done|].
  change (String.rev_app (s1 ++ s2) (String a s3)
          = String.rev_app s2 (String.rev_app s1 (String a s3))).
  apply IH.
Qed.

Lemma rev_append s1 s2 :
  String.rev (s1 ++ s2) = String.rev s2 ++ String.rev s1.
Proof.
  unfold String.rev at 1. by rewrite rev_app_app, rev_app_append.
Qed.

Lemma rev_involutive s : String.rev (String.rev s) = s.
Proof.
  induction s as [|a s IH]; [done|].
  change (String.rev (String a s)) with (String.rev_app s (String a "")).
  by rewrite rev_app_append, rev_append, IH.
Qed.

Lemma strip_substring s : ∃ pre post, s = pre ++ strip s ++ post.
Proof.
  unfold strip, rstrip, lstrip.
  destruct (strip_front_suffix false s) as [pre Hpre].
  destruct (strip_front_suffix true (String.rev (strip_front false s)))
    as [p Hp].
  exists pre, (String.rev p).
  rewrite <- rev_append, <- Hp, rev_involutive. exact Hpre.
Qed.

(** What [strip] does on a few values: the whitespace around the text
    goes, also the no-break space (bytes 194 160) and the ideographic
    space (bytes 227 128 128); whitespace inside the text stays. *)
Example strip_examples :
  strip " mil " = "mil"
  ∧ strip "   " = ""
  ∧ strip "" = ""
  ∧ strip "oat milk" = "oat milk"
  ∧ strip (String (ascii_of_N 9) "mil" ++ String (ascii_of_N 10) "")
    = "mil"
  ∧ strip (String (ascii_of_N 194) (String (ascii_of_N 160) "mil")
           ++ String (ascii_of_N 227)
                (String (ascii_of_N 128) (String (ascii_of_N 128) "")))
    = "mil".
Proof. repeat split. Qed.



(** The same for a value that holds a null character: the request is
    refused. *)
Example ingredient_filter_null_character :
  IngredientSearchFilter.filter_queryset_name
    [Sample.milk; Sample.milkshake; Sample.almilk]
    ("mil" ++ String (ascii_of_N 0) "")
  = Raise ValidationError.
Proof. reflexivity. Qed.

(** ** Tags filter *)

Lemma elem_of_filter_tags__slug db slugs qs r :
  r ∈ RecipeFilterSet.filter_tags__slug db slugs qs
  ↔ r ∈ qs ∧ tagged_with_any db r slugs.
Proof.
  unfold RecipeFilterSet.filter_tags__slug, tagged_with_any.
  rewrite list_elem_of_bind. split.
  - intros (r' & Hin & Hr').
    apply list_elem_of_bind in Hin as (rt & Hin & [? ?]%list_elem_of_filter).
    apply list_elem_of_bind in Hin as (t & Hr & [[? ?] ?]%list_elem_of_filter).
    apply list_elem_of_singleton in Hr as ->. eauto 10.
  - intros (Hr & rt & t & Hrt & Ht & Hrec & Htag & Hslug).
    exists r. split; [|done].
    apply list_elem_of_bind. exists rt. split; [|by apply list_elem_of_filter].
    apply list_elem_of_bind. exists t.
    split; [by apply list_elem_of_singleton | by apply list_elem_of_filter].
Qed.

(** The form field accepts the slugs exactly when each is the slug of a
    tag, and then cleans them into the tags that carry them. *)
Lemma clean_tags_valid db slugs :
  (∀ s, s ∈ slugs → ∃ t, t ∈ tags db ∧ Tag.slug t = s) →
  RecipeFilterSet.clean_tags db slugs
  = Ok (match slugs with
        | [] => []
        | _ => filter (λ t, Tag.slug t ∈ slugs) (tags db)
        end).
Proof.
  intros Hvalid. unfold RecipeFilterSet.clean_tags.
  destruct slugs as [|s0 slugs]; [done|].
  rewrite decide_True; [done|].
  apply Forall_forall. intros s Hs.
  destruct (Hvalid s Hs) as (t & Ht & <-).
  apply list_elem_of_fmap_2. by apply list_elem_of_filter.
Qed.

Lemma clean_tags_invalid db slugs s :
  s ∈ slugs → (∀ t, t ∈ tags db → Tag.slug t ≠ s) →
  RecipeFilterSet.clean_tags db slugs = Raise ValidationError.
Proof.
  intros Hs Hno. unfold RecipeFilterSet.clean_tags.
  destruct slugs as [|s0 slugs]; [by apply not_elem_of_nil in Hs|].
  rewrite decide_False; [done|].
  intros Hall. rewrite Forall_forall in Hall.
  apply Hall, list_elem_of_fmap in Hs as (t & -> & [_ Ht]%list_elem_of_filter).
  by apply (Hno t).
Qed.

(** C7, as the code has it. For every non-empty list of slugs that are
    all slugs of existing tags, the tags filter returns exactly the
    recipes of the queryset tagged with at least one of them, each once;
    when one of the slugs is the slug of no tag the filter form is
    invalid and the request ends in a validation error. *)
Theorem filter_tags_spec (db : DB) (qs : list Recipe.t)
    (slugs : list string) :
  slugs ≠ [] →
  ((∀ s, s ∈ slugs → ∃ t, t ∈ tags db ∧ Tag.slug t = s) →
   ∃ out, RecipeFilterSet.filter_queryset_tags db qs slugs = Ok out
          ∧ NoDup out
          ∧ ∀ r, r ∈ out ↔ r ∈ qs ∧ tagged_with_any db r slugs)
  ∧ ((∃ s, s ∈ slugs ∧ ∀ t, t ∈ tags db → Tag.slug t ≠ s) →
     RecipeFilterSet.filter_queryset_tags db qs slugs
     = Raise ValidationError).
Proof.
  intros Hne. unfold RecipeFilterSet.filter_queryset_tags. split.
  - intros Hvalid. rewrite (clean_tags_valid _ _ Hvalid).
    destruct slugs as [|s0 slugs]; [done|].
    eexists. split; [reflexivity|].
    unfold RecipeFilterSet.filter_tags.
    destruct (filter _ (tags db)) as [|t0 value] eqn:Hvalue.
    { destruct (Hvalid s0) as (t & Ht & Hslug); [left|].
      assert (t ∈ filter (λ t, Tag.slug t ∈ s0 :: slugs) (tags db)) as Hin.
      { apply list_elem_of_filter. split; [|done]. rewrite Hslug. left. }
      rewrite Hvalue in Hin. by apply not_elem_of_nil in Hin. }
    split; [apply NoDup_remove_dups|].
    intros r. rewrite elem_of_remove_dups, !elem_of_filter_tags__slug.
    apply and_iff_compat_l. unfold tagged_with_any.
    assert (∀ s, s ∈ remove_dups (Tag.slug <$> t0 :: value)
                 ↔ s ∈ s0 :: slugs) as Hq.
    { intros s. rewrite elem_of_remove_dups, <- Hvalue, list_elem_of_fmap.
      split.
      - by intros (t & -> & [? ?]%list_elem_of_filter).
      - intros Hs. destruct (Hvalid s Hs) as (t & Ht & <-).
        exists t. split; [done|]. by apply list_elem_of_filter. }
    split; intros (rt & t & ? & ? & ? & ? & Hs); exists rt, t;
      split_and!; try done; by apply Hq.
  - intros (s & Hs & Hno). by rewrite (clean_tags_invalid _ _ s).
Qed.

Lemma filter_tags_spec_witness :
  ["breakfast"; "lunch"] ≠ []
  ∧ (∀ s, s ∈ ["breakfast"; "lunch"] →
          ∃ t, t ∈ tags Sample.db ∧ Tag.slug t = s)
  ∧ ∃ out,
      RecipeFilterSet.filter_queryset_tags Sample.db (recipes Sample.db)
        ["breakfast"; "lunch"] = Ok out
      ∧ NoDup out
      ∧ ∀ r, r ∈ out
             ↔ r ∈ recipes Sample.db
               ∧ tagged_with_any Sample.db r ["breakfast"; "lunch"].
Proof.
  assert (∀ s, s ∈ ["breakfast"; "lunch"] →
               ∃ t, t ∈ tags Sample.db ∧ Tag.slug t = s) as Hvalid.
  { intros s Hs.
    apply elem_of_cons in Hs as [-> | ->%list_elem_of_singleton].
    - exists Sample.breakfast. split; [left|done].
    - exists Sample.lunch. split; [right; left|done]. }
  split_and!; [done|exact Hvalid|].
  by apply (filter_tags_spec Sample.db (recipes Sample.db)
              ["breakfast"; "lunch"]).
Defined.

(** C7 as stated fails: "breakfast" tags the porridge, yet asking for
    "breakfast" and "dinner" (the slug of no tag) returns no queryset. *)
Lemma filter_tags_unknown_slug_counterexample :
  ¬ (["breakfast"; "dinner"] ≠ [] →
     ∃ out,
       RecipeFilterSet.filter_queryset_tags Sample.db (recipes Sample.db)
         ["breakfast"; "dinner"] = Ok out
       ∧ ∀ r, r ∈ out
              ↔ r ∈ recipes Sample.db
                ∧ tagged_with_any Sample.db r ["breakfast"; "dinner"]).
Proof.
  intros Hclaim. destruct Hclaim as (out & Hout & _); [done|].
  vm_compute in Hout. discriminate.
Qed.

Example filter_tags_breakfast_lunch :
  RecipeFilterSet.filter_queryset_tags Sample.db (recipes Sample.db)
    ["breakfast"; "lunch"] = Ok [Sample.porridge; Sample.soup].
Proof. reflexivity. Qed.

(** ** Membership deletes *)

Lemma ShoppingCartViewSet_delete_shape user recipe_id :
  ShoppingCartViewSet.delete user recipe_id
  = toggle_delete recipes Recipe.pk shopping_list ShoppingCart.pk
      set_shopping_list
      (λ recipe c, ShoppingCart.user c = User.pk user
                   ∧ ShoppingCart.recipe c = Recipe.pk recipe)
      (λ recipe, "Рецепт (" ++ Recipe.name recipe
                 ++ ") уже отсутствует в списке покупок.")
      recipe_id.
Proof. reflexivity. Qed.

Lemma FavoriteRecipeViewSet_delete_shape user recipe_id :
  FavoriteRecipeViewSet.delete user recipe_id
  = toggle_delete recipes Recipe.pk favorites FavoriteRecipe.pk
      set_favorites
      (λ recipe f, FavoriteRecipe.user f = User.pk user
                   ∧ FavoriteRecipe.recipe f = Recipe.pk recipe)
      (λ recipe, "Рецепт (" ++ Recipe.name recipe
                 ++ ") уже отсутствует в избранном.")
      recipe_id.
Proof. reflexivity. Qed.

Lemma SubscribeViewSet_delete_shape str user user_id :
  SubscribeViewSet.delete str user user_id
  = toggle_delete users User.pk subscriptions Subscribe.pk
      set_subscriptions
      (λ author s, Subscribe.user s = User.pk user
                   ∧ Subscribe.subscribing s = User.pk author)
      (λ author, "Автор " ++ str author
                 ++ " отсутствут в Ваших подписках.")
      user_id.
Proof. reflexivity. Qed.

Section toggle_facts.
Context {T Mb K : Type}.
Context (targets : DB → list T) (target_pk : T → Z).
Context (rows : DB → list Mb) (row_pk : Mb → Z).
Context (set_rows : list Mb → DB → DB).
Context (is_member : T → Mb → Prop) `{∀ t m, Decision (is_member t m)}.
Context (message : T → string).
Context (key : Mb → K) (key_of : T → K).
Hypothesis is_member_key : ∀ t m, is_member t m → key m = key_of t.

Local Abbreviation handler :=
  (toggle_delete targets target_pk rows row_pk set_rows is_member message).

Ltac run_handler :=
  unfold toggle_delete, mbind, M_bind, mret, M_ret, bind, ret, query,
    try_except, execute, get_object_or_404.

Lemma toggle_delete_404 db id :
  (∀ t, t ∈ targets db → target_pk t ≠ id) →
  handler id db = (Raise Http404, db).
Proof.
  intros Hno. run_handler. by rewrite get_DoesNotExist.
Qed.

Lemma toggle_delete_400 db id t :
  NoDup (target_pk <$> targets db) →
  t ∈ targets db → target_pk t = id →
  (∀ m, m ∈ rows db → ¬ is_member t m) →
  handler id db
  = (Ok (mkResponse (Some {[ "errors" := VStr (message t) ]})
           HTTP_400_BAD_REQUEST), db).
Proof.
  intros Hpk Ht Hid Hno. run_handler.
  rewrite (get_Ok _ target_pk id _ t); [|done|done|done|done].
  by rewrite get_DoesNotExist.
Qed.

Lemma toggle_delete_204 db id t m :
  NoDup (target_pk <$> targets db) →
  NoDup (key <$> rows db) →
  t ∈ targets db → target_pk t = id →
  m ∈ rows db → is_member t m →
  handler id db
  = (Ok (mkResponse None HTTP_204_NO_CONTENT),
     set_rows (delete_pk row_pk m (rows db)) db).
Proof.
  intros Hpk Hkey Ht Hid Hm Hmem. run_handler.
  rewrite (get_Ok _ target_pk id _ t); [|done|done|done|done].
  rewrite (get_Ok _ key (key_of t) _ m); [done|done| |done|done].
  intros x. apply is_member_key.
Qed.

(** Only the 204 path writes to the store. *)
Lemma toggle_delete_writes db id :
  (handler id db).2 = db
  ∨ (handler id db).1 = Ok (mkResponse None HTTP_204_NO_CONTENT).
Proof.
  run_handler.
  destruct (get (λ t, target_pk t = id) (targets db)) as [t|[]];
    simpl; auto.
  destruct (get (is_member t) (rows db)) as [m|[]]; simpl; auto.
Qed.

(** The contract, for a handler of this shape on a store whose keys are
    unique. *)
Lemma toggle_delete_contract db id (target_name : T → string)
    (is_row : Mb → Prop) :
  NoDup (target_pk <$> targets db) →
  NoDup (key <$> rows db) →
  (∀ l, rows (set_rows l db) = l) →
  (∀ t m, target_pk t = id → is_member t m ↔ is_row m) →
  (∀ t, names (message t) (target_name t)) →
  delete_contract (targets db) target_pk target_name rows row_pk is_row id
    db (dispatch (handler id) db).
Proof.
  intros Hpk Hkey Hset Hrow Hnames. unfold delete_contract, dispatch.
  split; [|intros t Ht Hid; split].
  - intros Hno. by rewrite toggle_delete_404.
  - intros Hno. rewrite (toggle_delete_400 _ _ t); [|done|done|done|].
    + simpl. eauto.
    + intros m Hm Hmem. apply (Hno m Hm). by apply (Hrow t).
  - intros m Hm Hmem.
    rewrite (toggle_delete_204 _ _ t m); [|done|done|done|done|done|].
    2: by apply (Hrow t).
    simpl. rewrite Hset. unfold delete_pk. split_and!; [done| |].
    + intros x. rewrite list_elem_of_filter. tauto.
    + intros x [Hne Hx]%list_elem_of_filter Hx'. apply Hne. f_equal.
      apply (NoDup_fmap_elem_inj key (rows db)); [done..|].
      rewrite (is_member_key t x), (is_member_key t m);
        [done| |]; by apply (Hrow t).
Qed.

End toggle_facts.

Lemma names_between pre sub post : names (pre ++ sub ++ post) sub.
Proof. by exists pre, post. Qed.

(** C3. On a store that keeps its keys unique, each of the three
    membership deletes (shopping cart, favorite, subscribe) answers 404
    when the recipe or user of the path does not exist; else 400 with an
    [errors] message that names the target when the caller has no
    membership row for it; else it deletes the membership row and answers
    204 with no content. *)
Theorem membership_delete_contract (db : DB) (caller : User.t) (id : Z) :
  integrity db →
  delete_contract (recipes db) Recipe.pk Recipe.name shopping_list
    ShoppingCart.pk
    (λ c, ShoppingCart.user c = User.pk caller ∧ ShoppingCart.recipe c = id)
    id db (dispatch (ShoppingCartViewSet.delete caller id) db)
  ∧ delete_contract (recipes db) Recipe.pk Recipe.name favorites
      FavoriteRecipe.pk
      (λ f, FavoriteRecipe.user f = User.pk caller
            ∧ FavoriteRecipe.recipe f = id)
      id db (dispatch (FavoriteRecipeViewSet.delete caller id) db)
  ∧ ∀ User__str__ : User.t → string,
      delete_contract (users db) User.pk User__str__ subscriptions
        Subscribe.pk
        (λ s, Subscribe.user s = User.pk caller
              ∧ Subscribe.subscribing s = id)
        id db (dispatch (SubscribeViewSet.delete User__str__ caller id) db).
Proof.
  intros [Husers Hrecipes Hfav Hcart Hsubs]. split_and!; [| |intros str].
  - rewrite ShoppingCartViewSet_delete_shape.
    eapply (toggle_delete_contract _ _ _ _ _ _ _
              (λ c, (ShoppingCart.user c, ShoppingCart.recipe c))
              (λ r, (User.pk caller, Recipe.pk r)));
      [by intros r c [-> ->]|done|done|done| |intros; apply names_between].
    intros r c <-. tauto.
  - rewrite FavoriteRecipeViewSet_delete_shape.
    eapply (toggle_delete_contract _ _ _ _ _ _ _
              (λ f, (FavoriteRecipe.user f, FavoriteRecipe.recipe f))
              (λ r, (User.pk caller, Recipe.pk r)));
      [by intros r c [-> ->]|done|done|done| |intros; apply names_between].
    intros r c <-. tauto.
  - rewrite SubscribeViewSet_delete_shape.
    eapply (toggle_delete_contract _ _ _ _ _ _ _
              (λ s, (Subscribe.user s, Subscribe.subscribing s))
              (λ u, (User.pk caller, User.pk u)));
      [by intros r c [-> ->]|done|done|done| |intros; apply names_between].
    intros r c <-. tauto.
Qed.

Lemma Sample_integrity : integrity Sample.db.
Proof. split; compute_done. Qed.

Lemma membership_delete_contract_witness :
  integrity Sample.db
  ∧ (dispatch (ShoppingCartViewSet.delete Sample.alice 1) Sample.db).1
    = mkResponse None HTTP_204_NO_CONTENT
  ∧ ∀ x, x ∈ shopping_list
               (dispatch (ShoppingCartViewSet.delete Sample.alice 1)
                  Sample.db).2 →
         ¬ (ShoppingCart.user x = User.pk Sample.alice
            ∧ ShoppingCart.recipe x = 1).
Proof.
  split; [exact Sample_integrity|].
  pose proof (membership_delete_contract Sample.db Sample.alice 1
                Sample_integrity) as ([_ Hcart] & _ & _).
  destruct (Hcart Sample.porridge) as [_ Hdel]; [by left|done|].
  destruct (Hdel (ShoppingCart.mk 1 1 1)) as (Hresp & _ & Hgone);
    [by left|done|].
  by split.
Defined.

(** What the handlers do without the uniqueness of the pairs: with the
    same pair twice in the cart the lookup of the membership row raises,
    nothing is deleted, and the request is a server error. *)
Example delete_with_repeated_pair :
  let db := set_shopping_list
              [ShoppingCart.mk 1 1 1; ShoppingCart.mk 2 1 1] Sample.db in
  ShoppingCartViewSet.delete Sample.alice 1 db
  = (Raise MultipleObjectsReturned, db).
Proof. reflexivity. Qed.

(** C10. A membership delete (shopping cart, favorite, subscribe) that
    answers 400 leaves the whole store as it was. *)
Theorem membership_delete_400_keeps_store (db : DB) (caller : User.t)
    (id : Z) :
  (status (dispatch (ShoppingCartViewSet.delete caller id) db).1
   = HTTP_400_BAD_REQUEST →
   (dispatch (ShoppingCartViewSet.delete caller id) db).2 = db)
  ∧ (status (dispatch (FavoriteRecipeViewSet.delete caller id) db).1
     = HTTP_400_BAD_REQUEST →
     (dispatch (FavoriteRecipeViewSet.delete caller id) db).2 = db)
  ∧ (∀ User__str__ : User.t → string,
       status (dispatch (SubscribeViewSet.delete User__str__ caller id)
                 db).1 = HTTP_400_BAD_REQUEST →
       (dispatch (SubscribeViewSet.delete User__str__ caller id) db).2 = db).
Proof.
  assert (∀ h : M Response,
            ((h db).2 = db
             ∨ (h db).1 = Ok (mkResponse None HTTP_204_NO_CONTENT)) →
            status (dispatch h db).1 = HTTP_400_BAD_REQUEST →
            (dispatch h db).2 = db) as Hkeep.
  { intros h Hw. unfold dispatch.
    destruct (h db) as [[response|e] db'] eqn:Hh; simpl in *.
    - destruct Hw as [-> | [= ->]]; [done|discriminate].
    - destruct Hw as [-> | [=]]; by destruct e. }
  split_and!; [| |intros str]; apply Hkeep.
  - rewrite ShoppingCartViewSet_delete_shape. apply toggle_delete_writes.
  - rewrite FavoriteRecipeViewSet_delete_shape. apply toggle_delete_writes.
  - rewrite SubscribeViewSet_delete_shape. apply toggle_delete_writes.
Qed.

Lemma membership_delete_400_keeps_store_witness :
  (status (dispatch (ShoppingCartViewSet.delete Sample.bob 1)
             Sample.db).1 = HTTP_400_BAD_REQUEST
   ∧ (dispatch (ShoppingCartViewSet.delete Sample.bob 1) Sample.db).2
     = Sample.db)
  ∧ (status (dispatch (FavoriteRecipeViewSet.delete Sample.bob 1)
               Sample.db).1 = HTTP_400_BAD_REQUEST
     ∧ (dispatch (FavoriteRecipeViewSet.delete Sample.bob 1) Sample.db).2
       = Sample.db)
  ∧ (status (dispatch (SubscribeViewSet.delete User.username Sample.bob 1)
               Sample.db).1 = HTTP_400_BAD_REQUEST
     ∧ (dispatch (SubscribeViewSet.delete User.username Sample.bob 1)
          Sample.db).2 = Sample.db).
Proof.
  pose proof (membership_delete_400_keeps_store Sample.db Sample.bob 1)
    as (Hcart & Hfav & Hsub).
  split_and!; [reflexivity|by apply Hcart|reflexivity|by apply Hfav
              |reflexivity|by apply Hsub].
Defined.

(** ** Recipe author *)

(** The keyword argument of [save] wins over the validated data, and only
    over its [author] entry. *)
Lemma save_author_overrides (validated_data : gmap string value)
    (user : User.t) :
  ({[ "author" := VUser user ]} ∪ validated_data) !! "author"
  = Some (VUser user).
Proof. apply lookup_union_Some_l, lookup_singleton_eq. Qed.

Lemma save_keeps_other_entries (validated_data : gmap string value)
    (user : User.t) (key : string) :
  key ≠ "author" →
  ({[ "author" := VUser user ]} ∪ validated_data) !! key
  = validated_data !! key.
Proof.
  intros Hkey. apply lookup_union_r. by apply lookup_singleton_ne.
Qed.

(** Whatever the serializer, the views run its [create] and [update] on
    the validated data with the caller written over the [author] entry. *)
Lemma perform_create_runs_serializer `{W : serializers.WriteSerializer}
    (vd : gmap string value) (a : User.t) :
  RecipeViewSet.perform_create vd a
  = serializers.create (<[ "author" := VUser a ]> vd).
Proof.
  unfold RecipeViewSet.perform_create, serializers.save.
  by rewrite insert_union_singleton_l.
Qed.

Lemma perform_update_runs_serializer `{W : serializers.WriteSerializer}
    (inst : Recipe.t) (vd : gmap string value) (a : User.t) :
  RecipeViewSet.perform_update inst vd a
  = serializers.update inst (<[ "author" := VUser a ]> vd).
Proof.
  unfold RecipeViewSet.perform_update, serializers.save.
  by rewrite insert_union_singleton_l.
Qed.

Lemma next_pk_fresh {A} (pk : A → Z) (rows : list A) x :
  x ∈ rows → pk x < next_pk pk rows.
Proof.
  unfold next_pk. induction rows as [|y rows IH]; intros Hx.
  - by apply not_elem_of_nil in Hx.
  - simpl. apply elem_of_cons in Hx as [-> | Hx]; [lia|].
    specialize (IH Hx). lia.
Qed.

(** C4. With the write serializer modelled from the spec, for every
    payload, whatever author it names: a create by user [a] that succeeds
    stores exactly one new row, under a primary key no recipe had, built
    from the name and text of the payload and with author [a], and answers
    201 with it; a create whose payload has a name and a text succeeds; a
    partial update of recipe [pk] by [a] that succeeds puts in the place
    of the row [pk] a row with the same key and author [a], leaves the
    other rows alone, and answers 200 with it. *)
Theorem recipe_author_is_caller (a : User.t) (payload : gmap string value)
    (db : DB) :
  let create :=
    RecipeViewSet.create (W := ModelSerializer.write_serializer)
      (R := ModelSerializer.read_serializer) a payload in
  let partial_update pk :=
    RecipeViewSet.partial_update (W := ModelSerializer.write_serializer)
      (R := ModelSerializer.read_serializer) a pk payload in
  let representation :=
    @serializers.to_representation ModelSerializer.read_serializer in
  (∀ response db',
     create db = (Ok response, db') →
     ∃ r, db' = set_recipes (recipes db ++ [r])%list db
          ∧ (∀ x, x ∈ recipes db → Recipe.pk x ≠ Recipe.pk r)
          ∧ Recipe.author r = User.pk a
          ∧ payload !! "name" = Some (VStr (Recipe.name r))
          ∧ payload !! "text" = Some (VStr (Recipe.text r))
          ∧ response = mkResponse (Some (representation r))
                         HTTP_201_CREATED)
  ∧ (∀ n t,
       payload !! "name" = Some (VStr n) →
       payload !! "text" = Some (VStr t) →
       ∃ response db', create db = (Ok response, db'))
  ∧ (∀ pk response db',
       partial_update pk db = (Ok response, db') →
       ∃ old r, old ∈ recipes db ∧ Recipe.pk old = pk
            ∧ db' = set_recipes
                      (r :: filter (λ x, Recipe.pk x ≠ pk) (recipes db)) db
            ∧ Recipe.pk r = pk
            ∧ Recipe.author r = User.pk a
            ∧ response = mkResponse (Some (representation r))
                           HTTP_200_OK).
Proof.
  intros create partial_update representation.
  unfold create, partial_update, representation.
  unfold RecipeViewSet.create, RecipeViewSet.partial_update, mbind, M_bind,
    bind, query, mret, M_ret, ret.
  unfold RecipeViewSet.perform_create, RecipeViewSet.perform_update,
    serializers.save. simpl.
  unfold ModelSerializer.run_validation, ModelSerializer.create,
    ModelSerializer.update, ModelSerializer.setattrs.
  split_and!.
  - intros response db'.
    destruct (payload !! "name") as [[|n| |]|] eqn:Hn; try done;
      destruct (payload !! "text") as [[|t| |]|] eqn:Ht; try done.
    rewrite save_author_overrides, !save_keeps_other_entries, Hn, Ht
      by done.
    intros [= <- <-]. eexists. split_and!; try reflexivity.
    intros x Hx%(next_pk_fresh Recipe.pk). simpl. lia.
  - intros n t Hn Ht.
    rewrite Hn, Ht, save_author_overrides, !save_keeps_other_entries, Hn, Ht
      by done.
    eauto.
  - intros pk response db'.
    destruct (get_object_or_404 _ (recipes db)) as [old|e] eqn:Hget;
      [|done].
    assert (old ∈ recipes db ∧ Recipe.pk old = pk) as [Hold Hpk].
    { unfold get_object_or_404 in Hget.
      destruct (get _ (recipes db)) as [x|[]] eqn:Hg; simplify_eq.
      by apply get_Ok_inv in Hg. }
    destruct (payload !! "name") as [[|n| |]|] eqn:Hn; try done;
      destruct (payload !! "text") as [[|t| |]|] eqn:Ht; try done.
    rewrite save_author_overrides, !save_keeps_other_entries, Hn, Ht
      by done.
    intros [= <- <-]. eexists old, _. rewrite Hpk.
    split_and!; try reflexivity; done.
Qed.

Lemma recipe_author_is_caller_witness :
  (∃ response db' r,
      RecipeViewSet.create (W := ModelSerializer.write_serializer)
        (R := ModelSerializer.read_serializer) Sample.bob Sample.tea_payload
        Sample.db = (Ok response, db')
      ∧ Sample.tea_payload !! "author" = Some (VUser Sample.alice)
      ∧ recipes db' = (recipes Sample.db ++ [r])%list
      ∧ Recipe.author r = User.pk Sample.bob)
  ∧ (∃ response db' r,
        RecipeViewSet.partial_update (W := ModelSerializer.write_serializer)
          (R := ModelSerializer.read_serializer) Sample.bob 1
          Sample.tea_payload Sample.db = (Ok response, db')
        ∧ r ∈ recipes db' ∧ Recipe.pk r = 1
        ∧ Recipe.author r = User.pk Sample.bob).
Proof.
  pose proof (recipe_author_is_caller Sample.bob Sample.tea_payload
                Sample.db) as (Hcreate & _ & Hupdate).
  split.
  - destruct (Hcreate _ _ eq_refl) as (r & Hdb & _ & Hauthor & _).
    eexists _, _, r. split; [reflexivity|]. split; [reflexivity|].
    split; [|done]. by rewrite Hdb.
  - destruct (Hupdate 1 _ _ eq_refl) as (old & r & _ & _ & Hdb & Hpk & Ha & _).
    eexists _, _, r. split; [reflexivity|].
    split_and!; [|done|done]. rewrite Hdb. left.
Defined.

(** ** Ingredient lines *)








(** The same request with the first form marked for deletion. *)
Example recipe_with_deleted_first_form :
  let out := RecipeAdmin.add_view
               (Some (RecipeAdmin.mk_recipe_form 2 "Tea" "Brew." 300))
               [formsets.Changed None true] [] Sample.db in
  recipes out.2 = [Sample.porridge; Sample.soup;
                   Recipe.mk 3 2 "Tea" "Brew." 300]
  ∧ recipe_ingredients out.2 = recipe_ingredients Sample.db.
Proof. split; reflexivity. Qed.

(** * Further properties of the handlers and filters *)

(** ** Outcomes of a lookup *)

Lemma get_cases {A} (P : A → Prop) `{∀ x, Decision (P x)} rows :
  (get P rows = Raise DoesNotExist ∧ ∀ x, x ∈ rows → ¬ P x)
  ∨ (∃ m, get P rows = Ok m ∧ m ∈ rows ∧ P m)
  ∨ (get P rows = Raise MultipleObjectsReturned ∧ ∃ x, x ∈ rows ∧ P x).
Proof.
  unfold get. destruct (filter P rows) as [|x [|y l]] eqn:Hf.
  - left. split; [done|]. intros x Hx HP.
    assert (x ∈ filter P rows) as Hin by by apply list_elem_of_filter.
    rewrite Hf in Hin. by apply not_elem_of_nil in Hin.
  - right; left. exists x. split; [done|].
    assert (x ∈ filter P rows) as Hin by (rewrite Hf; left).
    apply list_elem_of_filter in Hin as [? ?]. done.
  - right; right. split; [done|]. exists x.
    assert (x ∈ filter P rows) as Hin by (rewrite Hf; left).
    apply list_elem_of_filter in Hin as [? ?]. done.
Qed.

Lemma NoDup_fmap_filter {A B} (g : A → B) (P : A → Prop)
    `{∀ x, Decision (P x)} (l : list A) :
  NoDup (g <$> l) → NoDup (g <$> filter P l).
Proof.
  intros Hnd. apply (sublist_NoDup _ _ Hnd), fmap_sublist, sublist_filter.
Qed.

(** ** Membership deletes: what they answer and what they write *)

Section toggle_outcomes.
Context {T Mb K : Type}.
Context (targets : DB → list T) (target_pk : T → Z).
Context (rows : DB → list Mb) (row_pk : Mb → Z).
Context (set_rows : list Mb → DB → DB).
Context (is_member : T → Mb → Prop) `{∀ t m, Decision (is_member t m)}.
Context (message : T → string).
Context (key : Mb → K) (key_of : T → K).
Hypothesis is_member_key : ∀ t m, is_member t m → key m = key_of t.

Local Abbreviation handler :=
  (toggle_delete targets target_pk rows row_pk set_rows is_member message).

Ltac run_handler :=
  unfold toggle_delete, mbind, M_bind, mret, M_ret, bind, ret, query,
    try_except, execute, get_object_or_404.

(** The handler answers 404 only for a target that is not there. *)
Lemma toggle_delete_404_iff db id :
  status (dispatch (handler id) db).1 = HTTP_404_NOT_FOUND
  ↔ ∀ t, t ∈ targets db → target_pk t ≠ id.
Proof.
  split.
  - intros Hst t Ht Hid. revert Hst. unfold dispatch. run_handler.
    destruct (get_cases (λ t, target_pk t = id) (targets db))
      as [[_ Hno] | [(t' & -> & _ & _) | [-> _]]]; simpl; [|..|done].
    + by destruct (Hno t Ht).
    + destruct (get_cases (is_member t') (rows db))
        as [[-> _] | [(m & -> & _ & _) | [-> _]]]; simpl; done.
  - intros Hno. unfold dispatch.
    by rewrite (toggle_delete_404 _ _ _ _ _ _ _ db id Hno).
Qed.

(** What the handler leaves behind is the store it got, or that store
    without the row it looked up. *)
Lemma toggle_delete_store db id :
  (handler id db).2 = db
  ∨ ∃ m, m ∈ rows db
         ∧ (handler id db).1 = Ok (mkResponse None HTTP_204_NO_CONTENT)
         ∧ (handler id db).2
           = set_rows (delete_pk row_pk m (rows db)) db.
Proof.
  run_handler.
  destruct (get_cases (λ t, target_pk t = id) (targets db))
    as [[-> _] | [(t & -> & _ & _) | [-> _]]]; simpl; auto.
  destruct (get_cases (is_member t) (rows db))
    as [[-> _] | [(m & -> & Hm & _) | [-> _]]]; simpl; eauto.
Qed.

(** With unique keys the handler ends in one of three ways. *)
Lemma toggle_delete_trichotomy db id :
  NoDup (target_pk <$> targets db) →
  NoDup (key <$> rows db) →
  ((∀ t, t ∈ targets db → target_pk t ≠ id)
   ∧ handler id db = (Raise Http404, db))
  ∨ (∃ t, t ∈ targets db ∧ target_pk t = id
          ∧ (∀ m, m ∈ rows db → ¬ is_member t m)
          ∧ handler id db
            = (Ok (mkResponse (Some {[ "errors" := VStr (message t) ]})
                     HTTP_400_BAD_REQUEST), db))
  ∨ (∃ t m, t ∈ targets db ∧ target_pk t = id
            ∧ m ∈ rows db ∧ is_member t m
            ∧ handler id db
              = (Ok (mkResponse None HTTP_204_NO_CONTENT),
                 set_rows (delete_pk row_pk m (rows db)) db)).
Proof.
  intros Hpk Hkey.
  destruct (get_cases (λ t, target_pk t = id) (targets db))
    as [[_ Hno] | [(t & _ & Ht & Hid) | [_ (t & Ht & Hid)]]].
  - left. split; [done|]. by apply toggle_delete_404.
  - destruct (get_cases (is_member t) (rows db))
      as [[_ Hno] | [(m & _ & Hm & Hmem) | [_ (m & Hm & Hmem)]]].
    + right; left. exists t. split_and!; [done..|].
      by apply toggle_delete_400.
    + right; right. exists t, m. split_and!; [done..|].
      by apply (toggle_delete_204 _ _ _ _ _ _ _ key key_of is_member_key
               db id t m).
    + right; right. exists t, m. split_and!; [done..|].
      by apply (toggle_delete_204 _ _ _ _ _ _ _ key key_of is_member_key
               db id t m).
  - destruct (get_cases (is_member t) (rows db))
      as [[_ Hno] | [(m & _ & Hm & Hmem) | [_ (m & Hm & Hmem)]]].
    + right; left. exists t. split_and!; [done..|].
      by apply toggle_delete_400.
    + right; right. exists t, m. split_and!; [done..|].
      by apply (toggle_delete_204 _ _ _ _ _ _ _ key key_of is_member_key
               db id t m).
    + right; right. exists t, m. split_and!; [done..|].
      by apply (toggle_delete_204 _ _ _ _ _ _ _ key key_of is_member_key
               db id t m).
Qed.

End toggle_outcomes.

Lemma dispatch_store (h : M Response) db : (dispatch h db).2 = (h db).2.
Proof. unfold dispatch. by destruct (h db) as [[?|[]] ?]. Qed.

Lemma length_delete_pk {A} (pk : A → Z) (rows : list A) m :
  NoDup (pk <$> rows) → m ∈ rows →
  length rows = S (length (delete_pk pk m rows)).
Proof.
  unfold delete_pk. induction rows as [|a rows IH]; intros Hnd Hm.
  - by apply not_elem_of_nil in Hm.
  - rewrite fmap_cons in Hnd. apply NoDup_cons in Hnd as [Ha Hnd].
    rewrite filter_cons. case_decide as Hpk; simpl.
    + f_equal. apply IH; [done|].
      apply elem_of_cons in Hm as [-> | Hm]; done.
    + assert (filter (λ x, pk x ≠ pk m) rows = rows) as ->; [|done].
      assert (pk a = pk m) as Heq by by destruct (decide (pk a = pk m)).
      clear IH Hm Hpk Hnd. induction rows as [|b rows IH]; [done|].
      rewrite filter_cons, decide_True.
      * f_equal. apply IH. intros Hin. apply Ha. by right.
      * intros Hb. apply Ha. rewrite Heq, <- Hb. left.
Qed.

Section toggle_sequences.
Context {T Mb K : Type}.
Context (targets : DB → list T) (target_pk : T → Z).
Context (rows : DB → list Mb) (row_pk : Mb → Z).
Context (set_rows : list Mb → DB → DB).
Context (is_member : T → Mb → Prop) `{∀ t m, Decision (is_member t m)}.
Context (message : T → string).
Context (key : Mb → K) (key_of : T → K).
Hypothesis is_member_key : ∀ t m, is_member t m → key m = key_of t.
Hypothesis rows_set : ∀ l db, rows (set_rows l db) = l.
Hypothesis targets_set : ∀ l db, targets (set_rows l db) = targets db.

Local Abbreviation handler :=
  (toggle_delete targets target_pk rows row_pk set_rows is_member message).

Local Abbreviation trichotomy :=
  (toggle_delete_trichotomy targets target_pk rows row_pk set_rows
     is_member message key key_of is_member_key).

Lemma toggle_delete_statuses db id :
  NoDup (target_pk <$> targets db) →
  NoDup (key <$> rows db) →
  status (dispatch (handler id) db).1 = HTTP_204_NO_CONTENT
  ∨ status (dispatch (handler id) db).1 = HTTP_400_BAD_REQUEST
  ∨ status (dispatch (handler id) db).1 = HTTP_404_NOT_FOUND.
Proof.
  intros Hpk Hkey. unfold dispatch.
  destruct (trichotomy db id Hpk Hkey)
    as [[_ ->] | [(t & _ & _ & _ & ->) | (t & m & _ & _ & _ & _ & ->)]];
    simpl; auto.
Qed.

(** A 204 comes with the row of the caller that was looked up. *)
Lemma toggle_delete_204_inv db id :
  NoDup (target_pk <$> targets db) →
  NoDup (key <$> rows db) →
  status (dispatch (handler id) db).1 = HTTP_204_NO_CONTENT →
  ∃ t m, t ∈ targets db ∧ target_pk t = id ∧ m ∈ rows db ∧ is_member t m
         ∧ (dispatch (handler id) db).2
           = set_rows (delete_pk row_pk m (rows db)) db.
Proof.
  intros Hpk Hkey. unfold dispatch.
  destruct (trichotomy db id Hpk Hkey)
    as [[_ ->] | [(t & _ & _ & _ & ->) | (t & m & ? & ? & ? & ? & ->)]];
    simpl; [done|done|]. intros _. eauto 10.
Qed.

Lemma toggle_delete_no_member_left db t m x :
  NoDup (key <$> rows db) →
  m ∈ rows db → is_member t m →
  x ∈ delete_pk row_pk m (rows db) → ¬ is_member t x.
Proof.
  intros Hkey Hm Hmem [Hne Hx]%list_elem_of_filter Hx'. apply Hne. f_equal.
  apply (NoDup_fmap_elem_inj key (rows db)); [done..|].
  by rewrite (is_member_key t x), (is_member_key t m).
Qed.

Lemma toggle_delete_twice db id :
  NoDup (target_pk <$> targets db) →
  NoDup (key <$> rows db) →
  status (dispatch (handler id) db).1 = HTTP_204_NO_CONTENT →
  status (dispatch (handler id) (dispatch (handler id) db).2).1
  = HTTP_400_BAD_REQUEST
  ∧ (dispatch (handler id) (dispatch (handler id) db).2).2
    = (dispatch (handler id) db).2.
Proof.
  intros Hpk Hkey Hst.
  destruct (toggle_delete_204_inv db id Hpk Hkey Hst)
    as (t & m & Ht & Hid & Hm & Hmem & ->).
  unfold dispatch.
  rewrite (toggle_delete_400 _ _ _ _ _ _ _ _ id t); [done|..].
  - by rewrite targets_set.
  - by rewrite targets_set.
  - done.
  - rewrite rows_set. intros x Hx.
    by apply (toggle_delete_no_member_left db t m).
Qed.

Lemma toggle_delete_one_row db id :
  NoDup (target_pk <$> targets db) →
  NoDup (key <$> rows db) →
  NoDup (row_pk <$> rows db) →
  status (dispatch (handler id) db).1 = HTTP_204_NO_CONTENT →
  length (rows db) = S (length (rows (dispatch (handler id) db).2))
  ∧ ∀ x, x ∈ rows db →
         (∀ t, target_pk t = id → ¬ is_member t x) →
         x ∈ rows (dispatch (handler id) db).2.
Proof.
  intros Hpk Hkey Hrow Hst.
  destruct (toggle_delete_204_inv db id Hpk Hkey Hst)
    as (t & m & Ht & Hid & Hm & Hmem & ->).
  rewrite rows_set. split; [by apply length_delete_pk|].
  intros x Hx Hnot. apply list_elem_of_filter. split; [|done].
  intros Heq. apply (Hnot t Hid).
  assert (x = m) as -> by by apply (NoDup_fmap_elem_inj row_pk (rows db)).
  done.
Qed.

(** After a 204 or a 400 the caller has no membership row for the
    target. *)
Lemma toggle_delete_absent_after db id :
  NoDup (target_pk <$> targets db) →
  NoDup (key <$> rows db) →
  status (dispatch (handler id) db).1 = HTTP_204_NO_CONTENT
  ∨ status (dispatch (handler id) db).1 = HTTP_400_BAD_REQUEST →
  ∃ t, t ∈ targets db ∧ target_pk t = id
       ∧ ∀ x, x ∈ rows (dispatch (handler id) db).2 → ¬ is_member t x.
Proof.
  intros Hpk Hkey. unfold dispatch.
  destruct (trichotomy db id Hpk Hkey)
    as [[_ ->] | [(t & ? & ? & ? & ->) | (t & m & ? & ? & ? & ? & ->)]];
    simpl.
  - by intros [|].
  - intros _. eauto.
  - intros _. exists t. split_and!; [done..|]. rewrite rows_set.
    intros x. by apply (toggle_delete_no_member_left db t m).
Qed.

End toggle_sequences.

(** The three handlers as instances of the common shape, with the pair
    that identifies a membership row. *)
Ltac cart_as_toggle lem caller :=
  rewrite !ShoppingCartViewSet_delete_shape;
  eapply (lem _ _ _ _ _ _ _ _ _ _ _
            (λ c, (ShoppingCart.user c, ShoppingCart.recipe c))
            (λ r : Recipe.t, (User.pk caller, Recipe.pk r)));
  [by intros ? ? [-> ->]|..].

Ltac favorite_as_toggle lem caller :=
  rewrite !FavoriteRecipeViewSet_delete_shape;
  eapply (lem _ _ _ _ _ _ _ _ _ _ _
            (λ f, (FavoriteRecipe.user f, FavoriteRecipe.recipe f))
            (λ r : Recipe.t, (User.pk caller, Recipe.pk r)));
  [by intros ? ? [-> ->]|..].

Ltac subscribe_as_toggle lem caller :=
  rewrite !SubscribeViewSet_delete_shape;
  eapply (lem _ _ _ _ _ _ _ _ _ _ _
            (λ s, (Subscribe.user s, Subscribe.subscribing s))
            (λ u : User.t, (User.pk caller, User.pk u)));
  [by intros ? ? [-> ->]|..].

(** X1. A membership delete answers 404 exactly when no recipe (no user,
    for subscribe) has the id of the path: a missing membership row, or a
    repeated one, never shows as not found. *)
Theorem membership_delete_404_iff (db : DB) (caller : User.t) (id : Z) :
  (status (dispatch (ShoppingCartViewSet.delete caller id) db).1
   = HTTP_404_NOT_FOUND
   ↔ ∀ r, r ∈ recipes db → Recipe.pk r ≠ id)
  ∧ (status (dispatch (FavoriteRecipeViewSet.delete caller id) db).1
     = HTTP_404_NOT_FOUND
     ↔ ∀ r, r ∈ recipes db → Recipe.pk r ≠ id)
  ∧ (∀ User__str__ : User.t → string,
       status (dispatch (SubscribeViewSet.delete User__str__ caller id)
                 db).1 = HTTP_404_NOT_FOUND
       ↔ ∀ u, u ∈ users db → User.pk u ≠ id).
Proof.
  split_and!; [| |intros str].
  - rewrite ShoppingCartViewSet_delete_shape. apply toggle_delete_404_iff.
  - rewrite FavoriteRecipeViewSet_delete_shape. apply toggle_delete_404_iff.
  - rewrite SubscribeViewSet_delete_shape. apply toggle_delete_404_iff.
Qed.

Lemma membership_delete_404_iff_witness :
  status (dispatch (ShoppingCartViewSet.delete Sample.bob 7) Sample.db).1
  = HTTP_404_NOT_FOUND
  ∧ ¬ (∀ u, u ∈ users Sample.db → User.pk u ≠ 2).
Proof.
  pose proof (membership_delete_404_iff Sample.db Sample.bob 7)
    as (Hcart & _ & _).
  pose proof (membership_delete_404_iff Sample.db Sample.bob 2)
    as (_ & _ & Hsub).
  split.
  - apply Hcart. intros r Hr.
    change (r ∈ [Sample.porridge; Sample.soup]) in Hr.
    by apply elem_of_cons in Hr as [-> | ->%list_elem_of_singleton].
  - intros Hno. apply (Hsub User.username) in Hno. discriminate Hno.
Defined.

Lemma membership_delete_tables (db : DB) (caller : User.t)
    (id : Z) :
  only_shrinks shopping_list set_shopping_list db
    (dispatch (ShoppingCartViewSet.delete caller id) db).2
  ∧ only_shrinks favorites set_favorites db
      (dispatch (FavoriteRecipeViewSet.delete caller id) db).2
  ∧ ∀ User__str__ : User.t → string,
      only_shrinks subscriptions set_subscriptions db
        (dispatch (SubscribeViewSet.delete User__str__ caller id) db).2.
Proof.
  split_and!; [| |intros str]; rewrite dispatch_store; unfold only_shrinks.
  - rewrite ShoppingCartViewSet_delete_shape.
    destruct (toggle_delete_store recipes Recipe.pk shopping_list
                ShoppingCart.pk set_shopping_list
                (λ recipe c, ShoppingCart.user c = User.pk caller
                             ∧ ShoppingCart.recipe c = Recipe.pk recipe)
                (λ recipe, "Рецепт (" ++ Recipe.name recipe
                           ++ ") уже отсутствует в списке покупок.")
                db id) as [-> | (m & _ & _ & ->)].
    + by destruct db.
    + split; [done|apply sublist_filter].
  - rewrite FavoriteRecipeViewSet_delete_shape.
    destruct (toggle_delete_store recipes Recipe.pk favorites
                FavoriteRecipe.pk set_favorites
                (λ recipe f, FavoriteRecipe.user f = User.pk caller
                             ∧ FavoriteRecipe.recipe f = Recipe.pk recipe)
                (λ recipe, "Рецепт (" ++ Recipe.name recipe
                           ++ ") уже отсутствует в избранном.")
                db id) as [-> | (m & _ & _ & ->)].
    + by destruct db.
    + split; [done|apply sublist_filter].
  - rewrite SubscribeViewSet_delete_shape.
    destruct (toggle_delete_store users User.pk subscriptions
                Subscribe.pk set_subscriptions
                (λ author s, Subscribe.user s = User.pk caller
                             ∧ Subscribe.subscribing s = User.pk author)
                (λ author, "Автор " ++ str author
                           ++ " отсутствут в Ваших подписках.")
                db id) as [-> | (m & _ & _ & ->)].
    + by destruct db.
    + split; [done|apply sublist_filter].
Qed.

(** X2. Whatever the store, a membership delete changes nothing but its
    own membership table, and that table only loses rows. *)
Theorem membership_delete_only_shrinks (db : DB) (caller : User.t)
    (id : Z) :
  only_shrinks shopping_list set_shopping_list db
    (dispatch (ShoppingCartViewSet.delete caller id) db).2
  ∧ only_shrinks favorites set_favorites db
      (dispatch (FavoriteRecipeViewSet.delete caller id) db).2
  ∧ ∀ User__str__ : User.t → string,
      only_shrinks subscriptions set_subscriptions db
        (dispatch (SubscribeViewSet.delete User__str__ caller id) db).2.
Proof. apply membership_delete_tables. Qed.

(** X3. On a store that keeps its keys unique a membership delete answers
    204, 400 or 404: no lookup of the handler raises a server error. *)
Theorem membership_delete_no_server_error (db : DB) (caller : User.t)
    (id : Z) :
  integrity db →
  let answers (out : Response * DB) :=
    status out.1 = HTTP_204_NO_CONTENT
    ∨ status out.1 = HTTP_400_BAD_REQUEST
    ∨ status out.1 = HTTP_404_NOT_FOUND in
  answers (dispatch (ShoppingCartViewSet.delete caller id) db)
  ∧ answers (dispatch (FavoriteRecipeViewSet.delete caller id) db)
  ∧ ∀ User__str__ : User.t → string,
      answers (dispatch (SubscribeViewSet.delete User__str__ caller id) db).
Proof.
  intros [Husers Hrecipes Hfav Hcart Hsubs] answers. unfold answers.
  split_and!; [| |intros str].
  - cart_as_toggle @toggle_delete_statuses caller; done.
  - favorite_as_toggle @toggle_delete_statuses caller; done.
  - subscribe_as_toggle @toggle_delete_statuses caller; done.
Qed.

Lemma membership_delete_no_server_error_witness :
  integrity Sample.db
  ∧ (status (dispatch (FavoriteRecipeViewSet.delete Sample.alice 2)
               Sample.db).1 = HTTP_204_NO_CONTENT
     ∨ status (dispatch (FavoriteRecipeViewSet.delete Sample.alice 2)
                 Sample.db).1 = HTTP_400_BAD_REQUEST
     ∨ status (dispatch (FavoriteRecipeViewSet.delete Sample.alice 2)
                 Sample.db).1 = HTTP_404_NOT_FOUND).
Proof.
  split; [exact Sample_integrity|].
  exact (proj1 (proj2 (membership_delete_no_server_error Sample.db
                         Sample.alice 2 Sample_integrity))).
Defined.

(** X4. A membership delete keeps the integrity of the store. *)
Theorem membership_delete_keeps_integrity (db : DB) (caller : User.t)
    (id : Z) :
  integrity db →
  integrity (dispatch (ShoppingCartViewSet.delete caller id) db).2
  ∧ integrity (dispatch (FavoriteRecipeViewSet.delete caller id) db).2
  ∧ ∀ User__str__ : User.t → string,
      integrity
        (dispatch (SubscribeViewSet.delete User__str__ caller id) db).2.
Proof.
  intros Hint.
  pose proof (membership_delete_tables db caller id)
    as (Hcart & Hfav & Hsub).
  destruct Hint as [Husers Hrecipes Hf Hc Hs].
  split_and!; [| |intros str].
  - destruct Hcart as [-> Hsl]. split; simpl; try done.
    eapply sublist_NoDup; [exact Hc|]. by apply fmap_sublist.
  - destruct Hfav as [-> Hsl]. split; simpl; try done.
    eapply sublist_NoDup; [exact Hf|]. by apply fmap_sublist.
  - destruct (Hsub str) as [-> Hsl]. split; simpl; try done.
    eapply sublist_NoDup; [exact Hs|]. by apply fmap_sublist.
Qed.

Lemma membership_delete_keeps_integrity_witness :
  integrity Sample.db
  ∧ integrity
      (dispatch (ShoppingCartViewSet.delete Sample.alice 1) Sample.db).2.
Proof.
  split; [exact Sample_integrity|].
  exact (proj1 (membership_delete_keeps_integrity Sample.db Sample.alice 1
                  Sample_integrity)).
Defined.

(** X5. On a store that keeps its keys unique, a membership delete that
    answered 204 answers 400 when it is repeated, and the repeated request
    leaves the store as the first one left it. *)
Theorem membership_delete_twice (db : DB) (caller : User.t) (id : Z) :
  integrity db →
  (let del := dispatch (ShoppingCartViewSet.delete caller id) in
   status (del db).1 = HTTP_204_NO_CONTENT →
   status (del (del db).2).1 = HTTP_400_BAD_REQUEST
   ∧ (del (del db).2).2 = (del db).2)
  ∧ (let del := dispatch (FavoriteRecipeViewSet.delete caller id) in
     status (del db).1 = HTTP_204_NO_CONTENT →
     status (del (del db).2).1 = HTTP_400_BAD_REQUEST
     ∧ (del (del db).2).2 = (del db).2)
  ∧ ∀ User__str__ : User.t → string,
      let del := dispatch (SubscribeViewSet.delete User__str__ caller id) in
      status (del db).1 = HTTP_204_NO_CONTENT →
      status (del (del db).2).1 = HTTP_400_BAD_REQUEST
      ∧ (del (del db).2).2 = (del db).2.
Proof.
  intros [Husers Hrecipes Hfav Hcart Hsubs].
  split_and!; [| |intros str]; intros del; unfold del.
  - cart_as_toggle @toggle_delete_twice caller; done.
  - favorite_as_toggle @toggle_delete_twice caller; done.
  - subscribe_as_toggle @toggle_delete_twice caller; done.
Qed.

Lemma membership_delete_twice_witness :
  let del := dispatch (ShoppingCartViewSet.delete Sample.alice 1) in
  integrity Sample.db
  ∧ status (del Sample.db).1 = HTTP_204_NO_CONTENT
  ∧ status (del (del Sample.db).2).1 = HTTP_400_BAD_REQUEST
  ∧ (del (del Sample.db).2).2 = (del Sample.db).2.
Proof.
  intros del. split; [exact Sample_integrity|]. split; [reflexivity|].
  apply (membership_delete_twice Sample.db Sample.alice 1 Sample_integrity).
  reflexivity.
Defined.

(** X6. On a store that keeps its keys unique and numbers the rows of a
    membership table with distinct primary keys, a delete that answers 204
    removes one row of the table and keeps every row that is not the
    caller's row for the target. *)
Theorem membership_delete_removes_one_row (db : DB) (caller : User.t)
    (id : Z) :
  integrity db →
  (NoDup (ShoppingCart.pk <$> shopping_list db) →
   let out := dispatch (ShoppingCartViewSet.delete caller id) db in
   status out.1 = HTTP_204_NO_CONTENT →
   length (shopping_list db) = S (length (shopping_list out.2))
   ∧ ∀ x, x ∈ shopping_list db →
          ¬ (ShoppingCart.user x = User.pk caller
             ∧ ShoppingCart.recipe x = id) →
          x ∈ shopping_list out.2)
  ∧ (NoDup (FavoriteRecipe.pk <$> favorites db) →
     let out := dispatch (FavoriteRecipeViewSet.delete caller id) db in
     status out.1 = HTTP_204_NO_CONTENT →
     length (favorites db) = S (length (favorites out.2))
     ∧ ∀ x, x ∈ favorites db →
            ¬ (FavoriteRecipe.user x = User.pk caller
               ∧ FavoriteRecipe.recipe x = id) →
            x ∈ favorites out.2)
  ∧ (NoDup (Subscribe.pk <$> subscriptions db) →
     ∀ User__str__ : User.t → string,
       let out :=
         dispatch (SubscribeViewSet.delete User__str__ caller id) db in
       status out.1 = HTTP_204_NO_CONTENT →
       length (subscriptions db) = S (length (subscriptions out.2))
       ∧ ∀ x, x ∈ subscriptions db →
              ¬ (Subscribe.user x = User.pk caller
                 ∧ Subscribe.subscribing x = id) →
              x ∈ subscriptions out.2).
Proof.
  intros [Husers Hrecipes Hfav Hcart Hsubs].
  split_and!; [intros Hpk out Hst|intros Hpk out Hst|intros Hpk str out Hst];
    unfold out in *; clear out.
  - rewrite ShoppingCartViewSet_delete_shape in *.
    assert (∀ (t : Recipe.t) (m : ShoppingCart.t),
              ShoppingCart.user m = User.pk caller
              ∧ ShoppingCart.recipe m = Recipe.pk t →
              (ShoppingCart.user m, ShoppingCart.recipe m)
              = (User.pk caller, Recipe.pk t)) as Hkey
      by (by intros ? ? [-> ->]).
    destruct (toggle_delete_one_row recipes Recipe.pk shopping_list
                ShoppingCart.pk set_shopping_list _ _ _ _ Hkey
                (λ _ _, eq_refl) db id Hrecipes Hcart Hpk Hst)
      as [Hlen Hkeep].
    split; [done|]. intros x Hx Hnot. apply Hkeep; [done|].
    intros t <- [? ?]. by apply Hnot.
  - rewrite FavoriteRecipeViewSet_delete_shape in *.
    assert (∀ (t : Recipe.t) (m : FavoriteRecipe.t),
              FavoriteRecipe.user m = User.pk caller
              ∧ FavoriteRecipe.recipe m = Recipe.pk t →
              (FavoriteRecipe.user m, FavoriteRecipe.recipe m)
              = (User.pk caller, Recipe.pk t)) as Hkey
      by (by intros ? ? [-> ->]).
    destruct (toggle_delete_one_row recipes Recipe.pk favorites
                FavoriteRecipe.pk set_favorites _ _ _ _ Hkey
                (λ _ _, eq_refl) db id Hrecipes Hfav Hpk Hst)
      as [Hlen Hkeep].
    split; [done|]. intros x Hx Hnot. apply Hkeep; [done|].
    intros t <- [? ?]. by apply Hnot.
  - rewrite SubscribeViewSet_delete_shape in *.
    assert (∀ (t : User.t) (m : Subscribe.t),
              Subscribe.user m = User.pk caller
              ∧ Subscribe.subscribing m = User.pk t →
              (Subscribe.user m, Subscribe.subscribing m)
              = (User.pk caller, User.pk t)) as Hkey
      by (by intros ? ? [-> ->]).
    destruct (toggle_delete_one_row users User.pk subscriptions
                Subscribe.pk set_subscriptions _ _ _ _ Hkey
                (λ _ _, eq_refl) db id Husers Hsubs Hpk Hst)
      as [Hlen Hkeep].
    split; [done|]. intros x Hx Hnot. apply Hkeep; [done|].
    intros t <- [? ?]. by apply Hnot.
Qed.

Lemma membership_delete_removes_one_row_witness :
  let out := dispatch (ShoppingCartViewSet.delete Sample.alice 1)
               (set_shopping_list
                  [ShoppingCart.mk 1 1 1; ShoppingCart.mk 2 2 1;
                   ShoppingCart.mk 3 1 2] Sample.db) in
  length (shopping_list out.2) = 2%nat
  ∧ ShoppingCart.mk 2 2 1 ∈ shopping_list out.2
  ∧ ShoppingCart.mk 3 1 2 ∈ shopping_list out.2.
Proof.
  set (db := set_shopping_list
               [ShoppingCart.mk 1 1 1; ShoppingCart.mk 2 2 1;
                ShoppingCart.mk 3 1 2] Sample.db).
  assert (integrity db) as Hint by (split; compute_done).
  assert (NoDup (ShoppingCart.pk <$> shopping_list db)) as Hpk
    by compute_done.
  destruct (proj1 (membership_delete_removes_one_row db Sample.alice 1
                     Hint) Hpk) as [Hlen Hkeep]; [reflexivity|].
  intros out. split_and!.
  - apply (inj S). exact (eq_sym Hlen).
  - apply Hkeep; [by right; left|]. by intros [? _].
  - apply Hkeep; [by right; right; left|]. by intros [_ ?].
Defined.

(** ** Deletes and what the lists show afterwards *)

Lemma annotated_flag_false db u a :
  a ∈ RecipeViewSet.annotated_queryset db (AuthUser u) →
  (AnnotatedRecipe.is_favorited a = false
   ↔ ∀ f, f ∈ favorites db →
          ¬ (FavoriteRecipe.user f = User.pk u
             ∧ FavoriteRecipe.recipe f
               = Recipe.pk (AnnotatedRecipe.recipe a)))
  ∧ (AnnotatedRecipe.is_in_shopping_cart a = false
     ↔ ∀ c, c ∈ shopping_list db →
            ¬ (ShoppingCart.user c = User.pk u
               ∧ ShoppingCart.recipe c
                 = Recipe.pk (AnnotatedRecipe.recipe a))).
Proof.
  intros Ha.
  destruct (proj2 (annotated_queryset_flags db (AuthUser u)) a Ha)
    as [Hfav Hcart].
  split.
  - destruct (AnnotatedRecipe.is_favorited a).
    + split; [done|]. intros Hno.
      destruct (proj1 Hfav eq_refl) as (f & Hf & ? & ?).
      by destruct (Hno f Hf).
    + split; [|done]. intros _ f Hf [? ?].
      assert (false = true); [|done]. apply Hfav. eauto.
  - destruct (AnnotatedRecipe.is_in_shopping_cart a).
    + split; [done|]. intros Hno.
      destruct (proj1 Hcart eq_refl) as (c & Hc & ? & ?).
      by destruct (Hno c Hc).
    + split; [|done]. intros _ c Hc [? ?].
      assert (false = true); [|done]. apply Hcart. eauto.
Qed.

(** X7. On a store that keeps its keys unique, once a favorite delete (a
    shopping cart delete) of a user for a recipe has answered 204 or 400,
    the recipe list built for that user flags the recipe as not favorited
    (not in the shopping cart). *)
Theorem delete_clears_flag (db : DB) (caller : User.t) (id : Z) :
  integrity db →
  (let out := dispatch (FavoriteRecipeViewSet.delete caller id) db in
   status out.1 = HTTP_204_NO_CONTENT
   ∨ status out.1 = HTTP_400_BAD_REQUEST →
   ∀ a, a ∈ RecipeViewSet.annotated_queryset out.2 (AuthUser caller) →
        Recipe.pk (AnnotatedRecipe.recipe a) = id →
        AnnotatedRecipe.is_favorited a = false)
  ∧ (let out := dispatch (ShoppingCartViewSet.delete caller id) db in
     status out.1 = HTTP_204_NO_CONTENT
     ∨ status out.1 = HTTP_400_BAD_REQUEST →
     ∀ a, a ∈ RecipeViewSet.annotated_queryset out.2 (AuthUser caller) →
          Recipe.pk (AnnotatedRecipe.recipe a) = id →
          AnnotatedRecipe.is_in_shopping_cart a = false).
Proof.
  intros [Husers Hrecipes Hfav Hcart Hsubs]. split.
  - intros out Hst a Ha Hid. unfold out in *. clear out.
    rewrite FavoriteRecipeViewSet_delete_shape in *.
    assert (∀ (t : Recipe.t) (m : FavoriteRecipe.t),
              FavoriteRecipe.user m = User.pk caller
              ∧ FavoriteRecipe.recipe m = Recipe.pk t →
              (FavoriteRecipe.user m, FavoriteRecipe.recipe m)
              = (User.pk caller, Recipe.pk t)) as Hkey
      by (by intros ? ? [-> ->]).
    destruct (toggle_delete_absent_after recipes Recipe.pk favorites
                FavoriteRecipe.pk set_favorites _ _ _ _ Hkey
                (λ _ _, eq_refl) db id Hrecipes Hfav Hst)
      as (t & _ & Ht & Hno).
    apply (annotated_flag_false _ _ _ Ha). intros f Hf [? ?].
    apply (Hno f Hf). split; [done|]. congruence.
  - intros out Hst a Ha Hid. unfold out in *. clear out.
    rewrite ShoppingCartViewSet_delete_shape in *.
    assert (∀ (t : Recipe.t) (m : ShoppingCart.t),
              ShoppingCart.user m = User.pk caller
              ∧ ShoppingCart.recipe m = Recipe.pk t →
              (ShoppingCart.user m, ShoppingCart.recipe m)
              = (User.pk caller, Recipe.pk t)) as Hkey
      by (by intros ? ? [-> ->]).
    destruct (toggle_delete_absent_after recipes Recipe.pk shopping_list
                ShoppingCart.pk set_shopping_list _ _ _ _ Hkey
                (λ _ _, eq_refl) db id Hrecipes Hcart Hst)
      as (t & _ & Ht & Hno).
    apply (annotated_flag_false _ _ _ Ha). intros c Hc [? ?].
    apply (Hno c Hc). split; [done|]. congruence.
Qed.

Lemma delete_clears_flag_witness :
  let out := dispatch (FavoriteRecipeViewSet.delete Sample.alice 2)
               Sample.db in
  integrity Sample.db
  ∧ status out.1 = HTTP_204_NO_CONTENT
  ∧ ∀ a, a ∈ RecipeViewSet.annotated_queryset out.2
               (AuthUser Sample.alice) →
         Recipe.pk (AnnotatedRecipe.recipe a) = 2 →
         AnnotatedRecipe.is_favorited a = false.
Proof.
  intros out. split; [exact Sample_integrity|]. split; [reflexivity|].
  apply (proj1 (delete_clears_flag Sample.db Sample.alice 2
                  Sample_integrity)).
  left. reflexivity.
Defined.

Lemma elem_of_subscriptions db a u :
  u ∈ SubscriptionsViewSet.get_queryset db a
  ↔ u ∈ users db
    ∧ ∃ s, s ∈ subscriptions db
           ∧ Subscribe.user s = User.pk a
           ∧ Subscribe.subscribing s = User.pk u.
Proof.
  unfold SubscriptionsViewSet.get_queryset.
  rewrite list_elem_of_filter, list_elem_of_fmap. split.
  - intros [(s & Hs & [? ?]%list_elem_of_filter) Hu]. eauto 10.
  - intros (Hu & s & Hs & Hsu & Hsub). split; [|done].
    exists s. split; [done|]. by apply list_elem_of_filter.
Qed.

(** X8. On a store that keeps its keys unique and numbers the
    subscription rows with distinct primary keys, after an unsubscribe
    that answered 204 the subscriptions list of the caller is the list of
    before without the author of the path: that author is gone and every
    other followed user is still there. *)
Theorem unsubscribe_updates_subscriptions (db : DB) (caller : User.t)
    (id : Z) (User__str__ : User.t → string) :
  integrity db →
  NoDup (Subscribe.pk <$> subscriptions db) →
  let out := dispatch (SubscribeViewSet.delete User__str__ caller id) db in
  status out.1 = HTTP_204_NO_CONTENT →
  ∀ u, u ∈ SubscriptionsViewSet.get_queryset out.2 caller
       ↔ u ∈ SubscriptionsViewSet.get_queryset db caller ∧ User.pk u ≠ id.
Proof.
  intros [Husers Hrecipes Hfav Hcart Hsubs] Hpk out Hst u.
  unfold out in *. clear out.
  destruct (proj2 (proj2 (membership_delete_tables db caller id))
              User__str__) as [Hdb Hsl].
  rewrite SubscribeViewSet_delete_shape in *.
  assert (∀ (t : User.t) (m : Subscribe.t),
            Subscribe.user m = User.pk caller
            ∧ Subscribe.subscribing m = User.pk t →
            (Subscribe.user m, Subscribe.subscribing m)
            = (User.pk caller, User.pk t)) as Hkey
    by (by intros ? ? [-> ->]).
  destruct (toggle_delete_absent_after users User.pk subscriptions
              Subscribe.pk set_subscriptions _ _ _ _ Hkey
              (λ _ _, eq_refl) db id Husers Hsubs (or_introl Hst))
    as (t & _ & Ht & Hno).
  destruct (toggle_delete_one_row users User.pk subscriptions
              Subscribe.pk set_subscriptions _ _ _ _ Hkey
              (λ _ _, eq_refl) db id Husers Hsubs Hpk Hst)
    as [_ Hkeep].
  set (db' := (dispatch _ db).2) in *.
  assert (users db' = users db) as Hu by (by rewrite Hdb).
  rewrite !elem_of_subscriptions, Hu. split.
  - intros (Hin & s & Hs & Hsu & Hsub). split.
    + split; [done|]. exists s. split; [|done].
      by apply (elem_of_sublist _ _ _ Hs).
    + intros Heq. apply (Hno s Hs). split; [done|]. congruence.
  - intros [(Hin & s & Hs & Hsu & Hsub) Hne]. split; [done|].
    exists s. split; [|done]. apply Hkeep; [done|].
    intros t' Ht' [_ Hsub']. apply Hne. congruence.
Qed.

Lemma unsubscribe_updates_subscriptions_witness :
  let out := dispatch (SubscribeViewSet.delete User.username Sample.alice 2)
               Sample.db in
  integrity Sample.db
  ∧ NoDup (Subscribe.pk <$> subscriptions Sample.db)
  ∧ status out.1 = HTTP_204_NO_CONTENT
  ∧ ¬ Sample.bob ∈ SubscriptionsViewSet.get_queryset out.2 Sample.alice.
Proof.
  intros out.
  assert (NoDup (Subscribe.pk <$> subscriptions Sample.db)) as Hpk
    by compute_done.
  split_and!; [exact Sample_integrity|exact Hpk|reflexivity|].
  intros Hin.
  apply (unsubscribe_updates_subscriptions Sample.db Sample.alice 2
           User.username Sample_integrity Hpk eq_refl) in Hin as [_ Hne].
  by apply Hne.
Defined.

(** ** Recipe list flags *)

(** X9. The queryset that the recipe view set builds (before the return
    that drops it) lists the recipes of the table in order, and for an
    authenticated user flags each with the existence of a favorite row and
    of a cart row of that user for the recipe; for an anonymous user both
    flags are false on every recipe. *)
Theorem annotated_queryset_spec (db : DB) (user : RequestUser) :
  AnnotatedRecipe.recipe <$> RecipeViewSet.annotated_queryset db user
  = recipes db
  ∧ ∀ a, a ∈ RecipeViewSet.annotated_queryset db user →
      match user with
      | AuthUser u =>
          (AnnotatedRecipe.is_favorited a = true
           ↔ ∃ f, f ∈ favorites db
                  ∧ FavoriteRecipe.user f = User.pk u
                  ∧ FavoriteRecipe.recipe f
                    = Recipe.pk (AnnotatedRecipe.recipe a))
          ∧ (AnnotatedRecipe.is_in_shopping_cart a = true
             ↔ ∃ c, c ∈ shopping_list db
                    ∧ ShoppingCart.user c = User.pk u
                    ∧ ShoppingCart.recipe c
                      = Recipe.pk (AnnotatedRecipe.recipe a))
      | AnonymousUser =>
          AnnotatedRecipe.is_favorited a = false
          ∧ AnnotatedRecipe.is_in_shopping_cart a = false
      end.
Proof. apply annotated_queryset_flags. Qed.

Lemma annotated_queryset_spec_witness :
  AnnotatedRecipe.mk Sample.soup true false
  ∈ RecipeViewSet.annotated_queryset Sample.db (AuthUser Sample.alice)
  ∧ ∃ f, f ∈ favorites Sample.db
         ∧ FavoriteRecipe.user f = User.pk Sample.alice
         ∧ FavoriteRecipe.recipe f = Recipe.pk Sample.soup.
Proof.
  assert (AnnotatedRecipe.mk Sample.soup true false
          ∈ RecipeViewSet.annotated_queryset Sample.db
              (AuthUser Sample.alice)) as Ha by (right; left).
  split; [exact Ha|].
  by apply (proj2 (annotated_queryset_spec Sample.db
                     (AuthUser Sample.alice)) _ Ha).
Defined.

(** X10. For an authenticated user the flags and the filters agree: the
    [is_favorited] filter with value 1 keeps, of all recipes, exactly
    those that the list flags as favorited, and when the
    [is_in_shopping_cart] filter with value 1 returns a queryset it keeps
    exactly those flagged as in the shopping cart. *)
Theorem flags_agree_with_filters (db : DB) (u : User.t) (name : string) :
  (∃ out,
      RecipeFilterSet.filter_is_favorited db (AuthUser u) (recipes db) name
        (Decimal.of_Z 1) = Some out
      ∧ ∀ r, r ∈ out
             ↔ ∃ a, a ∈ RecipeViewSet.annotated_queryset db (AuthUser u)
                    ∧ AnnotatedRecipe.recipe a = r
                    ∧ AnnotatedRecipe.is_favorited a = true)
  ∧ (∃ out,
        RecipeFilterSet.filter_is_in_shopping_cart db (AuthUser u)
          (recipes db) name (Decimal.of_Z 1) = Some out
        ∧ ∀ r, r ∈ out
               ↔ ∃ a, a ∈ RecipeViewSet.annotated_queryset db (AuthUser u)
                      ∧ AnnotatedRecipe.recipe a = r
                      ∧ AnnotatedRecipe.is_in_shopping_cart a = true).
Proof.
  destruct (annotated_queryset_flags db (AuthUser u)) as [Hall Hflags].
  assert (∀ r, r ∈ recipes db
               ↔ ∃ a, a ∈ RecipeViewSet.annotated_queryset db (AuthUser u)
                      ∧ AnnotatedRecipe.recipe a = r) as Hrec.
  { intros r. rewrite <- Hall, list_elem_of_fmap. split.
    - intros (a & -> & Ha). eauto.
    - intros (a & Ha & <-). eauto. }
  split; (eexists; split; [reflexivity|]); intros r.
  - rewrite elem_of_filter_favorites__user, Hrec. split.
    + intros [(a & Ha & <-) Hf]. exists a. split_and!; [done..|].
      by apply (Hflags a Ha).
    + intros (a & Ha & <- & Hfav). split; [eauto|].
      by apply (Hflags a Ha).
  - rewrite elem_of_filter_shopping_list__user, Hrec. split.
    + intros [(a & Ha & <-) Hc]. exists a. split_and!; [done..|].
      by apply (Hflags a Ha).
    + intros (a & Ha & <- & Hcart). split; [eauto|].
      by apply (Hflags a Ha).
Qed.

(** ** Ingredient search *)

Lemma LOWER_eq_UPPER_eq s s' : LOWER s = LOWER s' → UPPER s = UPPER s'.
Proof.
  revert s'. induction s as [|a s IH]; intros [|a' s']; simpl; try done.
  intros [= Ha Hs]. f_equal; [|by apply IH].
  apply upper_eq_lower_eq. done.
Qed.

Lemma LIKE_prefix_app s t column :
  LIKE_prefix (UPPER (s ++ t)) column = true →
  LIKE_prefix (UPPER s) column = true.
Proof.
  revert column. induction s as [|a s IH]; intros column; [done|].
  change (String a s ++ t) with (String a (s ++ t)). simpl.
  destruct column as [|c column]; [done|].
  case_decide; [apply IH|done].
Qed.

(** X11. The ingredient search does not depend on the case of the query:
    two values that are the same up to case select the same
    ingredients. *)
Theorem ingredient_filter_ignores_query_case (qs : list Ingredient.t)
    (s s' : string) :
  LOWER s = LOWER s' →
  IngredientSearchFilter.filter_name qs s
  = IngredientSearchFilter.filter_name qs s'.
Proof.
  intros Heq. unfold IngredientSearchFilter.filter_name.
  destruct s as [|a s], s' as [|a' s']; try done.
  apply list_filter_iff. intros i. unfold istartswith.
  by rewrite (LOWER_eq_UPPER_eq _ _ Heq).
Qed.

Lemma ingredient_filter_ignores_query_case_witness :
  LOWER "MiL" = LOWER "mil"
  ∧ IngredientSearchFilter.filter_name (ingredients Sample.db) "MiL"
    = IngredientSearchFilter.filter_name (ingredients Sample.db) "mil".
Proof.
  split; [reflexivity|].
  by apply ingredient_filter_ignores_query_case.
Defined.

(** X12. Typing on narrows the search: searching the result of a query
    for the query extended gives what searching everything for the
    extended query gives, which is a sub-list of the result of the
    shorter query. *)
Theorem ingredient_filter_refines (qs : list Ingredient.t) (s t : string) :
  IngredientSearchFilter.filter_name
    (IngredientSearchFilter.filter_name qs s) (s ++ t)
  = IngredientSearchFilter.filter_name qs (s ++ t)
  ∧ sublist (IngredientSearchFilter.filter_name qs (s ++ t))
      (IngredientSearchFilter.filter_name qs s).
Proof.
  assert (IngredientSearchFilter.filter_name
            (IngredientSearchFilter.filter_name qs s) (s ++ t)
          = IngredientSearchFilter.filter_name qs (s ++ t)) as Heq.
  { unfold IngredientSearchFilter.filter_name at 2.
    destruct s as [|a s]; [done|].
    change (String a s ++ t) with (String a (s ++ t)).
    unfold IngredientSearchFilter.filter_name.
    rewrite list_filter_filter. apply list_filter_iff. intros i.
    split; [tauto|]. intros Hi. split; [done|].
    unfold istartswith in *.
    apply (LIKE_prefix_app (String a s) t). done. }
  split; [done|]. rewrite <- Heq.
  unfold IngredientSearchFilter.filter_name at 1.
  destruct (s ++ t); [done|apply sublist_filter].
Qed.

Example ingredient_filter_refines_milk :
  IngredientSearchFilter.filter_name (ingredients Sample.db) "m"
  = [Sample.milk; Sample.milkshake]
  ∧ IngredientSearchFilter.filter_name (ingredients Sample.db) "milks"
    = [Sample.milkshake].
Proof. split; reflexivity. Qed.

(** ** Tags filter: order, repetition and widening *)

Lemma clean_tags_Ok_inv db slugs value :
  RecipeFilterSet.clean_tags db slugs = Ok value →
  (∀ s, s ∈ slugs → ∃ t, t ∈ tags db ∧ Tag.slug t = s)
  ∧ value = match slugs with
            | [] => []
            | _ => filter (λ t, Tag.slug t ∈ slugs) (tags db)
            end.
Proof.
  unfold RecipeFilterSet.clean_tags. destruct slugs as [|s0 slugs].
  - intros [= <-]. split; [|done]. intros s Hs.
    by apply not_elem_of_nil in Hs.
  - case_decide as Hall; [|done]. intros [= <-]. split; [|done].
    intros s Hs. rewrite Forall_forall in Hall.
    apply Hall, list_elem_of_fmap in Hs
      as (t & -> & [_ Ht]%list_elem_of_filter).
    eauto.
Qed.

Lemma elem_of_filter_tags_valid db qs slugs r :
  slugs ≠ [] →
  (∀ s, s ∈ slugs → ∃ t, t ∈ tags db ∧ Tag.slug t = s) →
  r ∈ RecipeFilterSet.filter_tags db qs
        (filter (λ t, Tag.slug t ∈ slugs) (tags db))
  ↔ r ∈ qs ∧ tagged_with_any db r slugs.
Proof.
  intros Hne Hvalid. unfold RecipeFilterSet.filter_tags.
  destruct (filter _ (tags db)) as [|t0 value] eqn:Hvalue.
  { destruct slugs as [|s0 slugs]; [done|].
    destruct (Hvalid s0) as (t & Ht & Hslug); [left|].
    assert (t ∈ filter (λ t, Tag.slug t ∈ s0 :: slugs) (tags db)) as Hin.
    { apply list_elem_of_filter. split; [|done]. rewrite Hslug. left. }
    rewrite Hvalue in Hin. by apply not_elem_of_nil in Hin. }
  rewrite elem_of_remove_dups, !elem_of_filter_tags__slug.
  apply and_iff_compat_l. unfold tagged_with_any.
  assert (∀ s, s ∈ remove_dups (Tag.slug <$> t0 :: value) ↔ s ∈ slugs)
    as Hq.
  { intros s. rewrite elem_of_remove_dups, <- Hvalue, list_elem_of_fmap.
    split.
    - by intros (t & -> & [? ?]%list_elem_of_filter).
    - intros Hs. destruct (Hvalid s Hs) as (t & Ht & <-).
      exists t. split; [done|]. by apply list_elem_of_filter. }
  split; intros (rt & t & ? & ? & ? & ? & Hs); exists rt, t;
    split_and!; try done; by apply Hq.
Qed.

Lemma elem_of_filter_queryset_tags db qs slugs out r :
  slugs ≠ [] →
  RecipeFilterSet.filter_queryset_tags db qs slugs = Ok out →
  r ∈ out ↔ r ∈ qs ∧ tagged_with_any db r slugs.
Proof.
  intros Hne. unfold RecipeFilterSet.filter_queryset_tags.
  destruct (RecipeFilterSet.clean_tags db slugs) as [value|e] eqn:Hclean;
    [|done].
  intros [= <-]. apply clean_tags_Ok_inv in Hclean as [Hvalid ->].
  destruct slugs as [|s0 slugs]; [done|].
  by apply elem_of_filter_tags_valid.
Qed.

(** X13. The tags filter depends only on the set of the slugs: lists with
    the same slugs, in any order and with any repetition, give the same
    outcome, the same queryset or the same rejection. *)
Theorem filter_tags_set_of_slugs (db : DB) (qs : list Recipe.t)
    (slugs slugs' : list string) :
  (∀ s, s ∈ slugs ↔ s ∈ slugs') →
  RecipeFilterSet.filter_queryset_tags db qs slugs
  = RecipeFilterSet.filter_queryset_tags db qs slugs'.
Proof.
  intros Hset.
  unfold RecipeFilterSet.filter_queryset_tags, RecipeFilterSet.clean_tags.
  destruct slugs as [|s0 slugs], slugs' as [|s0' slugs'].
  - done.
  - assert (s0' ∈ []) as Hin by (apply Hset; left).
    by apply not_elem_of_nil in Hin.
  - assert (s0 ∈ []) as Hin by (apply Hset; left).
    by apply not_elem_of_nil in Hin.
  - set (l := s0 :: slugs) in *. set (l' := s0' :: slugs') in *.
    assert (filter (λ t, Tag.slug t ∈ l) (tags db)
            = filter (λ t, Tag.slug t ∈ l') (tags db)) as Hf
      by (apply list_filter_iff; intros t; apply Hset).
    rewrite Hf.
    destruct (decide (Forall _ l)) as [Hall | Hall],
      (decide (Forall _ l')) as [Hall' | Hall']; try done.
    + destruct Hall'. rewrite Forall_forall in Hall |- *.
      intros s Hs. apply Hall, Hset, Hs.
    + destruct Hall. rewrite Forall_forall in Hall' |- *.
      intros s Hs. apply Hall', Hset, Hs.
Qed.

Lemma filter_tags_set_of_slugs_witness :
  (∀ s, s ∈ ["lunch"; "breakfast"; "lunch"] ↔ s ∈ ["breakfast"; "lunch"])
  ∧ RecipeFilterSet.filter_queryset_tags Sample.db (recipes Sample.db)
      ["lunch"; "breakfast"; "lunch"]
    = RecipeFilterSet.filter_queryset_tags Sample.db (recipes Sample.db)
        ["breakfast"; "lunch"].
Proof.
  assert (∀ s, s ∈ ["lunch"; "breakfast"; "lunch"]
               ↔ s ∈ ["breakfast"; "lunch"]) as Hset.
  { intros s. rewrite !elem_of_cons. tauto. }
  split; [exact Hset|]. by apply filter_tags_set_of_slugs.
Defined.

(** X14. Asking for more tags never loses a recipe: when two non-empty
    lists of slugs are both accepted and the second has all slugs of the
    first, every recipe that the first returns the second returns too. *)
Theorem filter_tags_widens (db : DB) (qs : list Recipe.t)
    (slugs slugs' : list string) (out out' : list Recipe.t) :
  slugs ≠ [] →
  (∀ s, s ∈ slugs → s ∈ slugs') →
  RecipeFilterSet.filter_queryset_tags db qs slugs = Ok out →
  RecipeFilterSet.filter_queryset_tags db qs slugs' = Ok out' →
  ∀ r, r ∈ out → r ∈ out'.
Proof.
  intros Hne Hsub Hout Hout' r.
  assert (slugs' ≠ []) as Hne'.
  { destruct slugs as [|s0 slugs]; [done|]. intros ->.
    assert (s0 ∈ []) as Hin by (apply Hsub; left).
    by apply not_elem_of_nil in Hin. }
  rewrite (elem_of_filter_queryset_tags _ _ _ _ _ Hne Hout),
    (elem_of_filter_queryset_tags _ _ _ _ _ Hne' Hout').
  intros [Hr (rt & t & ? & ? & ? & ? & Hs)]. split; [done|].
  exists rt, t. split_and!; try done. by apply Hsub.
Qed.

Lemma filter_tags_widens_witness :
  Sample.porridge
  ∈ match RecipeFilterSet.filter_queryset_tags Sample.db
            (recipes Sample.db) ["breakfast"; "lunch"] with
    | Ok out' => out'
    | Raise _ => []
    end.
Proof.
  apply (filter_tags_widens Sample.db (recipes Sample.db) ["breakfast"]
           ["breakfast"; "lunch"] [Sample.porridge]
           [Sample.porridge; Sample.soup]);
    [done| |reflexivity|reflexivity|left].
  intros s ->%list_elem_of_singleton. left.
Defined.

(** ** The whole recipe filter set *)

Lemma clean_author_Ok_inv db value cleaned :
  RecipeFilterSet.clean_author db value = Ok cleaned →
  match value, cleaned with
  | None, None => True
  | Some id, Some u => u ∈ users db ∧ User.pk u = id
  | _, _ => False
  end.
Proof.
  unfold RecipeFilterSet.clean_author. destruct value as [id|].
  - destruct (get _ (users db)) as [u|[]] eqn:Hget; try done.
    intros [= <-]. by apply get_Ok_inv in Hget.
  - by intros [= <-].
Qed.

Lemma elem_of_filter_author db qs value cleaned r :
  RecipeFilterSet.clean_author db value = Ok cleaned →
  r ∈ RecipeFilterSet.filter_author qs cleaned
  ↔ r ∈ qs ∧ ∀ id, value = Some id → Recipe.author r = id.
Proof.
  intros Hclean%clean_author_Ok_inv.
  unfold RecipeFilterSet.filter_author.
  destruct value as [id|], cleaned as [u|]; try done.
  - destruct Hclean as [_ <-]. rewrite list_elem_of_filter. split.
    + intros [? ?]. split; [done|]. by intros ? [= <-].
    + intros [? Hauthor]. split; [|done]. by apply Hauthor.
  - split; [|tauto]. intros ?. by split.
Qed.

Lemma elem_of_run_is_favorited db user name qs param out r :
  RecipeFilterSet.run_method_filter
    (RecipeFilterSet.filter_is_favorited db user) name qs param = Ok out →
  r ∈ out
  ↔ r ∈ qs
    ∧ ∀ v u, param = Some v → Decimal.truthy v = true → user = AuthUser u →
             ∃ f, f ∈ favorites db
                  ∧ FavoriteRecipe.user f = User.pk u
                  ∧ FavoriteRecipe.recipe f = Recipe.pk r.
Proof.
  unfold RecipeFilterSet.run_method_filter,
    RecipeFilterSet.filter_is_favorited.
  destruct param as [v|].
  - destruct (Decimal.truthy v) eqn:Hv, user as [|u]; intros [= <-].
    + split; [|tauto]. intros ?. split; [done|]. by intros ? ? _ _ ?.
    + rewrite elem_of_filter_favorites__user. split.
      * intros [? ?]. split; [done|]. by intros ? ? _ _ [= <-].
      * intros [? Hf]. split; [done|]. by apply (Hf v u).
    + split; [|tauto]. intros ?. split; [done|]. by intros ? ? _ ? ?.
    + split; [|tauto]. intros ?. split; [done|].
      intros ? ? [= <-] ? ?. congruence.
  - intros [= <-]. split; [|tauto]. intros ?. split; [done|].
    by intros ? ? ?.
Qed.

Lemma run_is_in_shopping_cart_cases db user name qs param :
  match RecipeFilterSet.run_method_filter
          (RecipeFilterSet.filter_is_in_shopping_cart db user) name qs
          param with
  | Ok out =>
      (param = None ∧ out = qs)
      ∨ ∃ v u, param = Some v ∧ Decimal.truthy v = true
               ∧ user = AuthUser u
               ∧ out = RecipeFilterSet.filter_shopping_list__user db u qs
  | Raise e =>
      e = AssertionError
      ∧ ∃ v, param = Some v
             ∧ (Decimal.truthy v = false ∨ is_authenticated user = false)
  end.
Proof.
  unfold RecipeFilterSet.run_method_filter,
    RecipeFilterSet.filter_is_in_shopping_cart.
  destruct param as [v|]; [|by left].
  destruct (Decimal.truthy v) eqn:Hv, user as [|u]; simpl; eauto 10.
Qed.


(** X15. The parameters of the recipe filter set combine as a
    conjunction: when the filtering returns a queryset, a recipe is in it
    exactly when it is in the queryset filtered, carries one of the tags
    asked for (if any), has the author asked for (if any), and, for each
    flag given with a truthy value by an authenticated user, has a
    favorite (cart) row of that user. *)
Theorem filter_queryset_conjunction (db : DB) (user : RequestUser)
    (qs : list Recipe.t) (data : RecipeFilterSet.Params.t)
    (out : list Recipe.t) :
  RecipeFilterSet.filter_queryset db user qs data = Ok out →
  ∀ r, r ∈ out
       ↔ r ∈ qs
         ∧ (RecipeFilterSet.Params.tags data ≠ [] →
            tagged_with_any db r (RecipeFilterSet.Params.tags data))
         ∧ (∀ id, RecipeFilterSet.Params.author data = Some id →
                  Recipe.author r = id)
         ∧ (∀ v u, RecipeFilterSet.Params.is_favorited data = Some v →
                   Decimal.truthy v = true → user = AuthUser u →
                   ∃ f, f ∈ favorites db
                        ∧ FavoriteRecipe.user f = User.pk u
                        ∧ FavoriteRecipe.recipe f = Recipe.pk r)
         ∧ (∀ v u, RecipeFilterSet.Params.is_in_shopping_cart data = Some v →
                   Decimal.truthy v = true → user = AuthUser u →
                   ∃ c, c ∈ shopping_list db
                        ∧ ShoppingCart.user c = User.pk u
                        ∧ ShoppingCart.recipe c = Recipe.pk r).
Proof.
  unfold RecipeFilterSet.filter_queryset.
  destruct (RecipeFilterSet.clean_tags db _) as [tv|?] eqn:Htags; [|done].
  destruct (RecipeFilterSet.clean_author db _) as [av|?] eqn:Hauthor;
    [|done].
  destruct (RecipeFilterSet.run_method_filter
              (RecipeFilterSet.filter_is_favorited db user) _ _ _)
    as [q3|?] eqn:Hfav; [|done].
  intros Hcart r.
  pose proof (run_is_in_shopping_cart_cases db user "is_in_shopping_cart"
                q3 (RecipeFilterSet.Params.is_in_shopping_cart data))
    as Hcases.
  rewrite Hcart in Hcases.
  assert (r ∈ q3
          ↔ r ∈ qs
            ∧ (RecipeFilterSet.Params.tags data ≠ [] →
               tagged_with_any db r (RecipeFilterSet.Params.tags data))
            ∧ (∀ id, RecipeFilterSet.Params.author data = Some id →
                     Recipe.author r = id)
            ∧ (∀ v u, RecipeFilterSet.Params.is_favorited data = Some v →
                      Decimal.truthy v = true → user = AuthUser u →
                      ∃ f, f ∈ favorites db
                           ∧ FavoriteRecipe.user f = User.pk u
                           ∧ FavoriteRecipe.recipe f = Recipe.pk r)) as Hq3.
  { rewrite (elem_of_run_is_favorited _ _ _ _ _ _ _ Hfav),
      (elem_of_filter_author _ _ _ _ _ Hauthor).
    apply clean_tags_Ok_inv in Htags as [Hvalid ->].
    destruct (RecipeFilterSet.Params.tags data) as [|s0 slugs] eqn:Hs.
    - simpl. split.
      + intros [[? ?] ?]. by split_and!.
      + intros (? & _ & ? & ?). by split_and!.
    - rewrite elem_of_filter_tags_valid; [|done|done]. split.
      + intros [[[? ?] ?] ?]. by split_and!.
      + intros (? & Ht & ? & ?). split_and!; try done. by apply Ht. }
  destruct Hcases as [[Hnone ->] | (v & u & Hsome & Hv & -> & ->)].
  - rewrite Hq3, Hnone. split; [|tauto].
    intros (? & ? & ? & ?). split_and!; try done.
  - rewrite elem_of_filter_shopping_list__user, Hq3, Hsome. split.
    + intros [(? & ? & ? & ?) ?]. split_and!; try done.
      by intros ? ? _ _ [= <-].
    + intros (? & ? & ? & ? & Hc). split; [done|]. by apply (Hc v u).
Qed.

Lemma filter_queryset_conjunction_witness :
  let data := RecipeFilterSet.Params.mk ["breakfast"; "lunch"] (Some 2)
                (Some (Decimal.of_Z 1)) None in
  RecipeFilterSet.filter_queryset Sample.db (AuthUser Sample.alice)
    (recipes Sample.db) data = Ok [Sample.soup]
  ∧ Recipe.author Sample.soup = 2.
Proof.
  intros data. split; [reflexivity|].
  assert (Sample.soup ∈ [Sample.soup]) as Hin by left.
  apply (filter_queryset_conjunction Sample.db (AuthUser Sample.alice)
           (recipes Sample.db) data [Sample.soup] eq_refl) in Hin
    as (_ & _ & Hauthor & _).
  by apply Hauthor.
Defined.






(** X19. On a store that holds each (user, recipe) pair at most once in
    the favorites and in the cart, the two flag filters never repeat a
    recipe: a queryset without repetition stays without repetition,
    whatever the value and the caller. *)
Theorem flag_filters_keep_NoDup (db : DB) (user : RequestUser)
    (qs out : list Recipe.t) (name : string) (value : Decimal.t) :
  integrity db →
  NoDup qs →
  (RecipeFilterSet.filter_is_favorited db user qs name value = Some out →
   NoDup out)
  ∧ (RecipeFilterSet.filter_is_in_shopping_cart db user qs name value
     = Some out →
     NoDup out).
Proof.
  intros [_ _ Hfav Hcart _] Hqs.
  unfold RecipeFilterSet.filter_is_favorited,
    RecipeFilterSet.filter_is_in_shopping_cart.
  split; destruct (Decimal.truthy value), user as [|u]; intros [= <-];
    try done.
  - by apply filter_favorites__user_NoDup.
  - unfold RecipeFilterSet.filter_shopping_list__user.
    apply NoDup_bind; [| |done].
    + intros r1 r2 r Hr1 Hr2 H1 H2.
      apply list_elem_of_bind in H1 as (? & H1 & _).
      apply list_elem_of_bind in H2 as (? & H2 & _).
      apply list_elem_of_singleton in H1, H2. congruence.
    + intros r Hr. apply NoDup_bind.
      * intros c1 c2 x [[? ?] ?]%list_elem_of_filter
          [[? ?] ?]%list_elem_of_filter _ _.
        apply (NoDup_fmap_elem_inj _ _ _ _ Hcart); auto. simpl. congruence.
      * intros; apply NoDup_singleton.
      * by apply NoDup_filter, (NoDup_fmap_1 _ _ Hcart).
Qed.

Lemma flag_filters_keep_NoDup_witness :
  integrity Sample.db ∧ NoDup (recipes Sample.db) ∧ NoDup [Sample.soup].
Proof.
  assert (NoDup (recipes Sample.db)) as Hqs by compute_done.
  split_and!; [exact Sample_integrity|exact Hqs|].
  apply (proj1 (flag_filters_keep_NoDup Sample.db (AuthUser Sample.alice)
                  (recipes Sample.db) [Sample.soup] "is_favorited"
                  (Decimal.of_Z 1) Sample_integrity Hqs)).
  reflexivity.
Defined.

(** ** Targets of the toggle view sets *)

Lemma get_object_or_404_by_pk {A} (pk : A → Z) (rows : list A)
    (key : option Z) :
  (key = None →
   get_object_or_404 (λ x, Some (pk x) = key) rows = Raise Http404)
  ∧ (∀ id, key = Some id → NoDup (pk <$> rows) →
       match get_object_or_404 (λ x, Some (pk x) = key) rows with
       | Ok x => x ∈ rows ∧ pk x = id
       | Raise e => e = Http404 ∧ ∀ x, x ∈ rows → pk x ≠ id
       end).
Proof.
  unfold get_object_or_404. split.
  - intros ->. by rewrite get_DoesNotExist.
  - intros id -> Hpk.
    destruct (get_cases (λ x, Some (pk x) = Some id) rows)
      as [[-> Hno] | [(x & -> & Hx & [= Hid]) | [_ (x & Hx & [= Hid])]]].
    + split; [done|]. intros x Hx Hid. apply (Hno x Hx). by rewrite Hid.
    + done.
    + rewrite (get_Ok _ pk id _ x); [done|done| |done|by rewrite Hid].
      by intros ? [= ?].
Qed.

(** X17. [get_queryset] of the shopping cart, favorite and subscribe view
    sets gives the recipe (the user) of the path: without the keyword in
    the path arguments it raises not found; with an id, on a table with
    distinct primary keys, it returns the row of that id or raises not
    found when there is none; it never writes to the store. *)
Theorem toggle_get_queryset_spec (db : DB) (kwargs : gmap string Z) :
  let by_pk {A} (table : list A) (pk : A → Z) (key : string)
        (out : result A * DB) :=
    out.2 = db
    ∧ (kwargs !! key = None → out.1 = Raise Http404)
    ∧ (∀ id, kwargs !! key = Some id → NoDup (pk <$> table) →
         match out.1 with
         | Ok x => x ∈ table ∧ pk x = id
         | Raise e => e = Http404 ∧ ∀ x, x ∈ table → pk x ≠ id
         end) in
  by_pk (recipes db) Recipe.pk "recipe_id"
    (ShoppingCartViewSet.get_queryset kwargs db)
  ∧ by_pk (recipes db) Recipe.pk "recipe_id"
      (FavoriteRecipeViewSet.get_queryset kwargs db)
  ∧ by_pk (users db) User.pk "user_id"
      (SubscribeViewSet.get_queryset kwargs db).
Proof.
  intros by_pk. unfold by_pk. split_and!; try done.
  - apply (get_object_or_404_by_pk Recipe.pk).
  - apply (get_object_or_404_by_pk Recipe.pk).
  - apply (get_object_or_404_by_pk Recipe.pk).
  - apply (get_object_or_404_by_pk Recipe.pk).
  - apply (get_object_or_404_by_pk User.pk).
  - apply (get_object_or_404_by_pk User.pk).
Qed.

Lemma toggle_get_queryset_spec_witness :
  (∅ : gmap string Z) !! "recipe_id" = None
  ∧ (ShoppingCartViewSet.get_queryset ∅ Sample.db).1 = Raise Http404
  ∧ ({[ "user_id" := 2 ]} : gmap string Z) !! "user_id" = Some 2
  ∧ NoDup (User.pk <$> users Sample.db)
  ∧ match (SubscribeViewSet.get_queryset {[ "user_id" := 2 ]}
             Sample.db).1 with
    | Ok u => u ∈ users Sample.db ∧ User.pk u = 2
    | Raise e => e = Http404 ∧ ∀ u, u ∈ users Sample.db → User.pk u ≠ 2
    end.
Proof.
  assert (NoDup (User.pk <$> users Sample.db)) as Hpk by compute_done.
  pose proof (toggle_get_queryset_spec Sample.db ∅) as ((_ & Hnone & _) & _).
  pose proof (toggle_get_queryset_spec Sample.db {[ "user_id" := 2 ]})
    as (_ & _ & (_ & _ & Hsome)).
  split_and!; [done|by apply Hnone|done|exact Hpk|].
  exact (Hsome 2 eq_refl Hpk).
Defined.

(** ** Recipe writes that fail *)

Section write_errors.
Context `{W : serializers.WriteSerializer} `{R : serializers.ReadSerializer}.

(** X18. A recipe write that fails writes nothing: a payload that the
    serializer rejects makes [create] and [partial_update] raise the
    serializer's error with the store untouched, and [partial_update] of
    an id that no recipe has raises not found, whatever the payload,
    before the payload is validated. *)
Theorem recipe_write_errors (a : User.t) (payload : gmap string value)
    (db : DB) :
  (∀ e, serializers.run_validation payload = Raise e →
        RecipeViewSet.create a payload db = (Raise e, db))
  ∧ (∀ pk, (∀ r, r ∈ recipes db → Recipe.pk r ≠ pk) →
           RecipeViewSet.partial_update a pk payload db
           = (Raise Http404, db))
  ∧ (∀ pk r e, NoDup (Recipe.pk <$> recipes db) →
               r ∈ recipes db → Recipe.pk r = pk →
               serializers.run_validation payload = Raise e →
               RecipeViewSet.partial_update a pk payload db
               = (Raise e, db)).
Proof.
  split_and!.
  - intros e He.
    unfold RecipeViewSet.create, mbind, M_bind, bind, query.
    by rewrite He.
  - intros pk Hno.
    unfold RecipeViewSet.partial_update, mbind, M_bind, bind, query,
      get_object_or_404.
    by rewrite get_DoesNotExist.
  - intros pk r e Hpk Hr Hid He.
    unfold RecipeViewSet.partial_update, mbind, M_bind, bind, query,
      get_object_or_404.
    rewrite (get_Ok _ Recipe.pk pk _ r); [|done..].
    by rewrite He.
Qed.

End write_errors.

Lemma recipe_write_errors_witness :
  let W := ModelSerializer.write_serializer in
  let R := ModelSerializer.read_serializer in
  serializers.run_validation (∅ : gmap string value)
  = Raise ValidationError
  ∧ RecipeViewSet.create Sample.bob ∅ Sample.db
    = (Raise ValidationError, Sample.db)
  ∧ RecipeViewSet.partial_update Sample.bob 7 Sample.tea_payload Sample.db
    = (Raise Http404, Sample.db)
  ∧ RecipeViewSet.partial_update Sample.bob 1 ∅ Sample.db
    = (Raise ValidationError, Sample.db).
Proof.
  intros W R.
  pose proof (recipe_write_errors (W := W) (R := R) Sample.bob ∅ Sample.db)
    as (Hcreate & _ & Hupdate).
  pose proof (recipe_write_errors (W := W) (R := R) Sample.bob
                Sample.tea_payload Sample.db) as (_ & Hmissing & _).
  split_and!; [reflexivity|by apply Hcreate| |].
  - apply Hmissing. intros r Hr.
    change (r ∈ [Sample.porridge; Sample.soup]) in Hr.
    by apply elem_of_cons in Hr as [-> | ->%list_elem_of_singleton].
  - apply (Hupdate 1 Sample.porridge); [compute_done|by left|done|done].
Defined.
